(** * cortex_bridge: the Python binding example for easytier_device_client

    A shallow embedding of [examples/cortex_agent_integration.py]: the
    ctypes structures, the [EasyTierDeviceClient] wrapper ([start], [stop],
    [get_network_info]) and the machine-identity block of [main].

    Conventions of the embedding.
    - A Python [str] is represented by its UTF-8 byte sequence (a Rocq
      [string]); [str.encode()] is then the identity and [bytes.decode()] is
      the UTF-8 well-formedness check, which raises on ill-formed input.
    - A [c_char_p] is [option string]: [None] is the NULL pointer.
    - The foreign library is an interface ([DeviceLibrary]); every call the
      wrapper makes is logged, with the Python objects handed to ctypes.
    - A method is a computation in the monad [Py]: it threads the process
      state and either returns a value or raises a Python exception.
    - A regular file holds bytes. A file opened in text mode is decoded as
      UTF-8 (the locale's encoding is taken to be UTF-8) with universal
      newlines, on a POSIX system.
    - [print] appends a line to the output: the standard output is taken
      to accept every text (it is open, and encodes as UTF-8).
    - Access rights are not modelled: a file that exists can be read, and
      a path can be created where the directory above it exists. *)

From stdpp Require Import gmap strings list fin_maps.
From Stdlib Require Import ZArith NArith Ascii String.

Open Scope string_scope.
Open Scope list_scope.

(** ** Python exceptions and results *)

Inductive PyExn :=
| ValueError
| UnicodeDecodeError
| FileExistsError
| FileNotFoundError
| IsADirectoryError
| NotADirectoryError.

Inductive Outcome (A : Type) :=
| Return (a : A)
| Raise (e : PyExn).
Arguments Return {A} a.
Arguments Raise {A} e.

(** ** Strings the way Python handles them *)

Module Str.

Definition code (c : ascii) : N := N_of_ascii c.

Definition in_range (lo hi : N) (c : ascii) : bool :=
  ((lo <=? code c) && (code c <=? hi))%N.

Definition isascii (c : ascii) : bool := (code c <? 128)%N.

Definition is_upper (c : ascii) : bool := in_range 65 90 c.
Definition is_lower (c : ascii) : bool := in_range 97 122 c.
Definition is_digit (c : ascii) : bool := in_range 48 57 c.
Definition is_ascii_alpha (c : ascii) : bool := is_upper c || is_lower c.

Definition lower_char (c : ascii) : ascii :=
  if is_upper c then ascii_of_N (code c + 32) else c.

Fixpoint map (f : ascii -> ascii) (s : string) : string :=
  match s with
  | "" => ""
  | String c r => String (f c) (map f r)
  end.

Fixpoint forallb (p : ascii -> bool) (s : string) : bool :=
  match s with
  | "" => true
  | String c r => p c && forallb p r
  end.

Fixpoint contains (c : ascii) (s : string) : bool :=
  match s with
  | "" => false
  | String d r => Ascii.eqb c d || contains c r
  end.

(** [s.replace(c, "")] for every character [c] that satisfies [p]. *)
Fixpoint remove (p : ascii -> bool) (s : string) : string :=
  match s with
  | "" => ""
  | String c r => if p c then remove p r else String c (remove p r)
  end.

Fixpoint lstrip (p : ascii -> bool) (s : string) : string :=
  match s with
  | "" => ""
  | String c r => if p c then lstrip p r else s
  end.

Fixpoint rstrip (p : ascii -> bool) (s : string) : string :=
  match s with
  | "" => ""
  | String c r =>
      match rstrip p r with
      | "" => if p c then "" else String c ""
      | r' => String c r'
      end
  end.

(** [s.strip(chars)] where [p] decides membership in [chars]. *)
Definition strip (p : ascii -> bool) (s : string) : string :=
  rstrip p (lstrip p s).

(** [s.partition(sep)] for a one-character separator: [None] when [sep]
    does not occur, otherwise the text before and after its first
    occurrence. *)
Fixpoint partition (sep : ascii) (s : string) : option (string * string) :=
  match s with
  | "" => None
  | String c r =>
      if Ascii.eqb c sep then Some ("", r)
      else match partition sep r with
           | Some (a, b) => Some (String c a, b)
           | None => None
           end
  end.

(** The longest prefix whose characters all satisfy [p], and the rest. *)
Fixpoint span (p : ascii -> bool) (s : string) : string * string :=
  match s with
  | "" => ("", "")
  | String c r =>
      if p c then let '(a, b) := span p r in (String c a, b)
      else ("", s)
  end.

(** The text before the last occurrence of [sep], that occurrence
    included ([s[:s.rfind(sep)+1]]). *)
Fixpoint upto_last (sep : ascii) (s : string) : string :=
  match s with
  | "" => ""
  | String c r =>
      if contains sep r then String c (upto_last sep r)
      else if Ascii.eqb c sep then String c ""
      else ""
  end.

Definition is_empty (s : string) : bool :=
  match s with "" => true | _ => false end.

(** Python truthiness of a [str] or [bytes] object. *)
Definition truthy (s : string) : bool := negb (is_empty s).

Fixpoint starts_with (p s : string) : option string :=
  match p, s with
  | "", _ => Some s
  | String a p', String b s' => if Ascii.eqb a b then starts_with p' s' else None
  | _, _ => None
  end.

End Str.

(** *** Whitespace, as [str.strip()] without arguments sees it

    [str.isspace] holds of U+0009..U+000D, U+001C..U+0020, U+0085, U+00A0,
    U+1680, U+2000..U+200A, U+2028, U+2029, U+202F, U+205F and U+3000;
    they appear here in their UTF-8 encoding. *)

Module Whitespace.

Definition ascii_space (c : ascii) : bool :=
  Str.in_range 9 13 c || Str.in_range 28 32 c.

Definition two (a b : ascii) : bool :=
  (Str.code a =? 194)%N && ((Str.code b =? 133) || (Str.code b =? 160))%N.

Definition three (a b c : ascii) : bool :=
  let a := Str.code a in
  let b := Str.code b in
  let c := Str.code c in
  ((a =? 225) && (b =? 154) && (c =? 128)
   || (a =? 226) && (b =? 128)
        && ((128 <=? c) && (c <=? 138) || (c =? 168) || (c =? 169) || (c =? 175))
   || (a =? 226) && (b =? 129) && (c =? 159)
   || (a =? 227) && (b =? 128) && (c =? 128))%N.

Fixpoint lstrip (s : string) : string :=
  match s with
  | "" => ""
  | String a r1 =>
      if ascii_space a then lstrip r1
      else match r1 with
           | "" => s
           | String b r2 =>
               if two a b then lstrip r2
               else match r2 with
                    | "" => s
                    | String c r3 => if three a b c then lstrip r3 else s
                    end
           end
  end.

(** The same scan from the right end: the reversed text is scanned for the
    reversed encodings. *)
Fixpoint lstrip_rev (s : string) : string :=
  match s with
  | "" => ""
  | String a r1 =>
      if ascii_space a then lstrip_rev r1
      else match r1 with
           | "" => s
           | String b r2 =>
               if two b a then lstrip_rev r2
               else match r2 with
                    | "" => s
                    | String c r3 => if three c b a then lstrip_rev r3 else s
                    end
           end
  end.

Definition rstrip (s : string) : string :=
  String.rev (lstrip_rev (String.rev s)).

Definition strip (s : string) : string := rstrip (lstrip s).

End Whitespace.

(** *** UTF-8 *)

Module Utf8.

Definition cont (c : ascii) : bool := Str.in_range 128 191 c.

(** Well-formed UTF-8 (Unicode, table 3-7): what [bytes.decode()] accepts. *)
Fixpoint valid (s : string) : bool :=
  match s with
  | "" => true
  | String a r =>
      if Str.isascii a then valid r
      else if Str.in_range 194 223 a then
        match r with
        | String b r' => cont b && valid r'
        | _ => false
        end
      else if Str.in_range 224 239 a then
        match r with
        | String b (String c r') =>
            (if (Str.code a =? 224)%N then Str.in_range 160 191 b
             else if (Str.code a =? 237)%N then Str.in_range 128 159 b
             else cont b)
            && cont c && valid r'
        | _ => false
        end
      else if Str.in_range 240 244 a then
        match r with
        | String b (String c (String d r')) =>
            (if (Str.code a =? 240)%N then Str.in_range 144 191 b
             else if (Str.code a =? 244)%N then Str.in_range 128 143 b
             else cont b)
            && cont c && cont d && valid r'
        | _ => false
        end
      else false
  end.

(** [str.encode()]: a [str] is held as its UTF-8 bytes. *)
Definition encode (s : string) : string := s.

(** [bytes.decode()]. *)
Definition decode (b : string) : Outcome string :=
  if valid b then Return b else Raise UnicodeDecodeError.

End Utf8.

(** ** [urllib.parse.urlparse] (CPython 3.12)

    The splitting is modelled in full. Two checks of the netloc rest on
    tables the model does not expand; they are taken from the runtime:
    [_check_bracketed_host] (the [ipaddress] parser, for a host between
    brackets) and the NFKC test of [_checknetloc] (consulted only for a
    netloc that is not ASCII). *)


Class PyRuntime := {
  bracketed_host_ok : string -> bool;
  nfkc_netloc_ok : string -> bool;
  (** [repr] of a [str], which rests on the Unicode tables as well. *)
  repr_str : string -> string
}.

Module Url.

Record ParseResult := {
  scheme : string;
  netloc : string;
  path : string;
  params : string;
  query : string;
  fragment : string
}.

(** [_WHATWG_C0_CONTROL_OR_SPACE] *)
Definition is_c0_control_or_space (c : ascii) : bool := (Str.code c <=? 32)%N.

(** [_UNSAFE_URL_BYTES_TO_REMOVE]: tab, carriage return, line feed. *)
Definition is_unsafe (c : ascii) : bool :=
  ((Str.code c =? 9) || (Str.code c =? 13) || (Str.code c =? 10))%N.

(** [scheme_chars]: letters, digits and [+-.]. *)
Definition is_scheme_char (c : ascii) : bool :=
  Str.is_ascii_alpha c || Str.is_digit c
  || Ascii.eqb c "+" || Ascii.eqb c "-" || Ascii.eqb c ".".

Definition uses_params : list string :=
  [""; "ftp"; "hdl"; "prospero"; "http"; "imap"; "https"; "shttp"; "rtsp";
   "rtspu"; "sip"; "sips"; "mms"; "sftp"; "tel"].

Definition first_is_alpha (s : string) : bool :=
  match s with
  | "" => false
  | String c _ => Str.isascii c && Str.is_ascii_alpha c
  end.

(** The scheme, when the text before the first colon is one. *)
Definition split_scheme (url : string) : string * string :=
  match Str.partition ":" url with
  | Some (pre, post) =>
      if first_is_alpha pre && Str.forallb is_scheme_char pre
      then (Str.map Str.lower_char pre, post)
      else ("", url)
  | None => ("", url)
  end.

Definition is_netloc_delim (c : ascii) : bool :=
  Ascii.eqb c "/" || Ascii.eqb c "?" || Ascii.eqb c "#".

(** [_splitnetloc(url, 2)] after a leading [//]. *)
Definition split_netloc (url : string) : string * string :=
  match url with
  | String "/" (String "/" rest) => Str.span (fun c => negb (is_netloc_delim c)) rest
  | _ => ("", url)
  end.

(** [netloc.partition('[')[2].partition(']')[0]] *)
Definition bracketed_host (netloc : string) : string :=
  match Str.partition "[" netloc with
  | Some (_, after) =>
      match Str.partition "]" after with
      | Some (host, _) => host
      | None => after
      end
  | None => ""
  end.

Section Checks.
Context `{PyRuntime}.

Definition check_brackets (netloc : string) : bool :=
  let l := Str.contains "[" netloc in
  let r := Str.contains "]" netloc in
  if l && negb r || r && negb l then false
  else if l && r then bracketed_host_ok (bracketed_host netloc)
  else true.

Definition checknetloc (netloc : string) : bool :=
  Str.is_empty netloc || Str.forallb Str.isascii netloc || nfkc_netloc_ok netloc.

(** [urlsplit(url)]: scheme, netloc, path, query, fragment. *)
Definition urlsplit (url : string)
  : Outcome (string * string * string * string * string) :=
  let url := Str.lstrip is_c0_control_or_space url in
  let url := Str.remove is_unsafe url in
  let '(scheme, url) := split_scheme url in
  let '(netloc, url) := split_netloc url in
  if negb (check_brackets netloc) then Raise ValueError
  else
    let '(url, fragment) :=
      match Str.partition "#" url with
      | Some (a, b) => (a, b)
      | None => (url, "")
      end in
    let '(url, query) :=
      match Str.partition "?" url with
      | Some (a, b) => (a, b)
      | None => (url, "")
      end in
    if negb (checknetloc netloc) then Raise ValueError
    else Return (scheme, netloc, url, query, fragment).

(** [_splitparams]: the parameters of the last path segment. *)
Definition splitparams (url : string) : string * string :=
  let head := Str.upto_last "/" url in
  match Str.starts_with head url with
  | Some tail =>
      match Str.partition ";" tail with
      | Some (a, b) => (head +:+ a, b)
      | None => (url, "")
      end
  | None => (url, "")
  end.

Definition urlparse (url : string) : Outcome ParseResult :=
  match urlsplit url with
  | Raise e => Raise e
  | Return (scheme, netloc, url, query, fragment) =>
      let '(url, params) :=
        if bool_decide (scheme ∈ uses_params) && Str.contains ";" url
        then splitparams url
        else (url, "") in
      Return {| scheme := scheme; netloc := netloc; path := url;
                params := params; query := query; fragment := fragment |}
  end.

End Checks.

End Url.

(** ** [uuid.uuid4] and [str(UUID)] *)

Module uuid.

Definition hex_digit (n : N) : ascii :=
  match N.to_nat n with
  | 0 => "0" | 1 => "1" | 2 => "2" | 3 => "3" | 4 => "4" | 5 => "5"
  | 6 => "6" | 7 => "7" | 8 => "8" | 9 => "9" | 10 => "a" | 11 => "b"
  | 12 => "c" | 13 => "d" | 14 => "e" | _ => "f"
  end%char.

(** The [i]-th hexadecimal digit of [u], digit 0 being the lowest. *)
Definition nibble (u : N) (i : nat) : N :=
  N.land (N.shiftr u (4 * N.of_nat i)) 15.

(** [count] digits of [u] from digit [hi] downwards. *)
Fixpoint hex_run (u : N) (hi count : nat) : string :=
  match count with
  | 0 => ""
  | S c => String (hex_digit (nibble u hi)) (hex_run u (hi - 1) c)
  end.

(** [UUID(bytes=os.urandom(16), version=4)]: the 128 random bits with the
    variant and version fields overwritten. *)
Definition uuid4 (random : N) : N :=
  let int := N.land random (N.ones 128) in
  let int := N.ldiff int (N.shiftl 49152 48) in
  let int := N.lor int (N.shiftl 32768 48) in
  let int := N.ldiff int (N.shiftl 61440 64) in
  N.lor int (N.shiftl 4 76).

(** [str(u)]: 32 hexadecimal digits grouped 8-4-4-4-12. *)
Definition str (u : N) : string :=
  hex_run u 31 8 +:+ "-" +:+ hex_run u 23 4 +:+ "-" +:+ hex_run u 19 4
  +:+ "-" +:+ hex_run u 15 4 +:+ "-" +:+ hex_run u 11 12.

End uuid.

(** ** The ctypes structures *)

Abbreviation c_char_p := (option string).

Module CortexWebClient.
Record t := {
  config_server_url : c_char_p;
  organization_id : c_char_p;
  machine_id : c_char_p
}.
End CortexWebClient.

Module CortexNetworkInfo.
Record t := {
  instance_name : c_char_p;
  network_name : c_char_p;
  virtual_ipv4 : c_char_p;
  hostname : c_char_p;
  version : c_char_p
}.
End CortexNetworkInfo.

(** ** The foreign library

    [libeasytier_device_client] as ctypes sees it: four entry points over a
    state of its own. [cortex_get_web_client_network_info] receives the
    address of a null [POINTER(CortexNetworkInfo)] and may store a structure
    there ([None]: the pointer is left null). *)

Class DeviceLibrary (L : Type) := {
  cortex_start_web_client : CortexWebClient.t -> L -> Z * L;
  cortex_stop_web_client : string -> L -> Z * L;
  cortex_get_web_client_network_info :
    string -> L -> Z * option CortexNetworkInfo.t * L;
  easytier_common_get_error_msg : L -> c_char_p * L
}.

(** A call into the library, with its arguments. *)
Inductive LibCall :=
| Call_start (config : CortexWebClient.t)
| Call_stop (instance_name : string)
| Call_get_network_info (instance_name : string)
| Call_get_error_msg.

(** ** The file system

    A path holds a regular file (with the bytes stored in it) or a
    directory; the root directory always exists. *)

Inductive Node :=
| File (content : string)
| Dir.

(** ** Process state *)

Record World (L : Type) := {
  library : L;
  (** the calls made into the library, oldest first *)
  calls : list LibCall;
  (** the lines printed, oldest first *)
  stdout : list string;
  (** [self.instance_name] of the client object *)
  instance_name : option string;
  (** [os.urandom(16)] as a 128-bit number, draw by draw *)
  urandom : nat -> N;
  drawn : nat;
  fs : gmap string Node;
  (** every state the file system went through after a write to it,
      oldest first *)
  fs_seen : list (gmap string Node)
}.
Arguments library {L} _.
Arguments calls {L} _.
Arguments stdout {L} _.
Arguments instance_name {L} _.
Arguments urandom {L} _.
Arguments drawn {L} _.
Arguments fs {L} _.
Arguments fs_seen {L} _.

Section Monad.
Context {L : Type}.

Definition Py (A : Type) : Type := World L -> Outcome A * World L.

Definition ret {A} (a : A) : Py A := fun w => (Return a, w).

Definition raise {A} (e : PyExn) : Py A := fun w => (Raise e, w).

Definition bind {A B} (m : Py A) (k : A -> Py B) : Py B :=
  fun w =>
    match m w with
    | (Return a, w') => k a w'
    | (Raise e, w') => (Raise e, w')
    end.

Definition lift {A} (o : Outcome A) : Py A := fun w => (o, w).

Definition set_library (l : L) (w : World L) : World L :=
  {| library := l; calls := calls w; stdout := stdout w;
     instance_name := instance_name w; urandom := urandom w;
     drawn := drawn w; fs := fs w; fs_seen := fs_seen w |}.

Definition log_call (c : LibCall) (w : World L) : World L :=
  {| library := library w; calls := calls w ++ [c]; stdout := stdout w;
     instance_name := instance_name w; urandom := urandom w;
     drawn := drawn w; fs := fs w; fs_seen := fs_seen w |}.

Definition put_line (s : string) (w : World L) : World L :=
  {| library := library w; calls := calls w; stdout := stdout w ++ [s];
     instance_name := instance_name w; urandom := urandom w;
     drawn := drawn w; fs := fs w; fs_seen := fs_seen w |}.

Definition set_instance_name (n : option string) (w : World L) : World L :=
  {| library := library w; calls := calls w; stdout := stdout w;
     instance_name := n; urandom := urandom w;
     drawn := drawn w; fs := fs w; fs_seen := fs_seen w |}.

Definition set_drawn (d : nat) (w : World L) : World L :=
  {| library := library w; calls := calls w; stdout := stdout w;
     instance_name := instance_name w; urandom := urandom w;
     drawn := d; fs := fs w; fs_seen := fs_seen w |}.

Definition set_fs (f : gmap string Node) (w : World L) : World L :=
  {| library := library w; calls := calls w; stdout := stdout w;
     instance_name := instance_name w; urandom := urandom w;
     drawn := drawn w; fs := f; fs_seen := fs_seen w ++ [f] |}.

End Monad.

Declare Scope py_scope.
Delimit Scope py_scope with py.
Notation "x <- m ;; k" := (bind m (fun x => k))
  (at level 100, m at next level, right associativity) : py_scope.
Notation "m ;;; k" := (bind m (fun _ => k))
  (at level 100, right associativity) : py_scope.
Open Scope py_scope.

(** ** ctypes calls and the built-ins the script uses *)

Section Primitives.
Context {L : Type} `{DeviceLibrary L}.

(** A foreign call: logged, then run on the library's state. *)
Definition lib_start (config : CortexWebClient.t) : Py (L := L) Z :=
  fun w =>
    let w := log_call (Call_start config) w in
    let '(r, l) := cortex_start_web_client config (library w) in
    (Return r, set_library l w).

Definition lib_stop (name : string) : Py (L := L) Z :=
  fun w =>
    let w := log_call (Call_stop name) w in
    let '(r, l) := cortex_stop_web_client name (library w) in
    (Return r, set_library l w).

Definition lib_get_network_info (name : string)
  : Py (L := L) (Z * option CortexNetworkInfo.t) :=
  fun w =>
    let w := log_call (Call_get_network_info name) w in
    let '(r, info_ptr, l) := cortex_get_web_client_network_info name (library w) in
    (Return (r, info_ptr), set_library l w).

Definition lib_get_error_msg : Py (L := L) c_char_p :=
  fun w =>
    let w := log_call Call_get_error_msg w in
    let '(m, l) := easytier_common_get_error_msg (library w) in
    (Return m, set_library l w).

Definition print (line : string) : Py (L := L) unit :=
  fun w => (Return tt, put_line line w).

Definition get_instance_name : Py (L := L) (option string) :=
  fun w => (Return (instance_name w), w).

Definition assign_instance_name (n : option string) : Py (L := L) unit :=
  fun w => (Return tt, set_instance_name n w).

(** [str(uuid.uuid4())] *)
Definition uuid4_str : Py (L := L) string :=
  fun w =>
    (Return (uuid.str (uuid.uuid4 (urandom w (drawn w)))),
     set_drawn (S (drawn w)) w).

(** Truthiness of a [c_char_p] value read by ctypes: [None] and [b""] are
    false. *)
Definition truthy_bytes (b : c_char_p) : bool :=
  match b with
  | None => false
  | Some s => Str.truthy s
  end.

(** Truthiness of [self.instance_name]: [None] and [""] are false. *)
Definition truthy_name (n : option string) : bool :=
  match n with
  | None => false
  | Some s => Str.truthy s
  end.

(** [field.decode() if field else ""] *)
Definition decode_or_empty (field : c_char_p) : Py (L := L) string :=
  match field with
  | Some b => if Str.truthy b then lift (Utf8.decode b) else ret ""
  | None => ret ""
  end.

End Primitives.

(** ** [EasyTierDeviceClient] *)

Module EasyTierDeviceClient.
Section Client.
Context {L : Type} `{DeviceLibrary L} `{PyRuntime}.

(** [__init__]: the library is loaded and its signatures declared (not
    modelled); no instance is recorded. *)
Definition init : Py (L := L) unit := assign_instance_name None.

Definition start (config_server_url : string) (machine_id : option string)
  : Py (L := L) bool :=
  machine_id <- match machine_id with
                | None => uuid4_str
                | Some m => ret m
                end ;;
  let config :=
    {| CortexWebClient.config_server_url := Some (Utf8.encode config_server_url);
       CortexWebClient.organization_id := None;
       CortexWebClient.machine_id := Some (Utf8.encode machine_id) |} in
  result <- lib_start config ;;
  if (result =? 0)%Z then
    parsed <- lift (Url.urlparse config_server_url) ;;
    let name := Str.strip (Ascii.eqb "/") (Url.path parsed) in
    assign_instance_name (Some name) ;;;
    print "✓ Web client started successfully" ;;;
    print ("  Organization ID: " +:+ name) ;;;
    print ("  Machine ID: " +:+ machine_id) ;;;
    print ("  Config Server: " +:+ config_server_url) ;;;
    ret true
  else
    error_msg <- lib_get_error_msg ;;
    (if truthy_bytes error_msg then
       text <- lift (Utf8.decode (default "" error_msg)) ;;
       print ("✗ Failed to start web client: " +:+ text)
     else ret tt) ;;;
    ret false.

Definition stop : Py (L := L) bool :=
  name <- get_instance_name ;;
  if negb (truthy_name name) then
    print "No active instance to stop" ;;;
    ret false
  else
    result <- lib_stop (Utf8.encode (default "" name)) ;;
    if (result =? 0)%Z then
      print "✓ Web client stopped" ;;;
      assign_instance_name None ;;;
      ret true
    else
      print "✗ Failed to stop web client" ;;;
      ret false.

Definition get_network_info : Py (L := L) (option (gmap string string)) :=
  name <- get_instance_name ;;
  if negb (truthy_name name) then ret None
  else
    r <- lib_get_network_info (Utf8.encode (default "" name)) ;;
    match r with
    | (result, Some info) =>
        if (result =? 0)%Z then
          instance_name <- decode_or_empty (CortexNetworkInfo.instance_name info) ;;
          network_name <- decode_or_empty (CortexNetworkInfo.network_name info) ;;
          virtual_ipv4 <- decode_or_empty (CortexNetworkInfo.virtual_ipv4 info) ;;
          hostname <- decode_or_empty (CortexNetworkInfo.hostname info) ;;
          version <- decode_or_empty (CortexNetworkInfo.version info) ;;
          ret (Some (<["version" := version]>
                    (<["hostname" := hostname]>
                    (<["virtual_ipv4" := virtual_ipv4]>
                    (<["network_name" := network_name]>
                    (<["instance_name" := instance_name]> ∅))))))
        else ret None
    | (_, None) => ret None
    end.

End Client.
End EasyTierDeviceClient.

(** ** Files: [os.path], [os.makedirs], [open] *)

Module os.

(** [posixpath.dirname] *)
Definition dirname (p : string) : string :=
  let head := Str.upto_last "/" p in
  if Str.truthy head && negb (Str.forallb (Ascii.eqb "/") head)
  then Str.rstrip (Ascii.eqb "/") head
  else head.

(** The directories on the way to [p], outermost first and [p] last; the
    root is not listed. *)
Fixpoint walk (seen rest : string) : list string :=
  match rest with
  | "" => if Str.is_empty seen then [] else [seen]
  | String c r =>
      if Ascii.eqb c "/" && Str.truthy seen && negb (String.eqb seen "/")
      then seen :: walk (seen +:+ String c "") r
      else walk (seen +:+ String c "") r
  end.

Definition chain (p : string) : list string := walk "" p.

(** One [mkdir] of [os.makedirs(_, exist_ok=True)]: an existing directory
    is accepted, an existing file is not. [last] tells the directory asked
    for from those above it. *)
Definition mkdir_step (f : gmap string Node) (d : string) (last : bool)
  : Outcome (gmap string Node) :=
  match f !! d with
  | Some Dir => Return f
  | Some (File _) => Raise (if last then FileExistsError else NotADirectoryError)
  | None => Return (<[d := Dir]> f)
  end.

Fixpoint mkdirs (f : gmap string Node) (ds : list string)
  : Outcome (gmap string Node) :=
  match ds with
  | [] => Return f
  | d :: rest =>
      match mkdir_step f d (bool_decide (rest = [])) with
      | Return f' => mkdirs f' rest
      | Raise e => Raise e
      end
  end.

(** Universal newlines, as a file opened for reading in text mode has
    them: "\r\n" and a lone "\r" are read as "\n". *)
Fixpoint universal_newlines (s : string) : string :=
  match s with
  | "" => ""
  | String c r =>
      if Ascii.eqb c "013"
      then match r with
           | String d r' =>
               if Ascii.eqb d "010"
               then String "010" (universal_newlines r')
               else String "010" (universal_newlines r)
           | "" => String "010" ""
           end
      else String c (universal_newlines r)
  end.

Definition is_dir (f : gmap string Node) (p : string) : bool :=
  Str.forallb (Ascii.eqb "/") p
  || match f !! p with Some Dir => true | _ => false end.

Section Files.
Context {L : Type}.

(** [os.path.exists] *)
Definition path_exists (p : string) : Py (L := L) bool :=
  fun w => (Return (bool_decide (is_Some (fs w !! p))), w).

(** [os.makedirs(name, exist_ok=True)] *)
Definition makedirs (name : string) : Py (L := L) unit :=
  fun w =>
    if Str.is_empty name then (Raise FileNotFoundError, w)
    else match mkdirs (fs w) (chain name) with
         | Return f => (Return tt, set_fs f w)
         | Raise e => (Raise e, w)
         end.

(** [with open(p, 'r') as f: f.read()]: the bytes of the file are decoded
    (strictly) and the line ends of the text are translated. *)
Definition read_text (p : string) : Py (L := L) string :=
  fun w =>
    match fs w !! p with
    | Some (File c) =>
        match Utf8.decode c with
        | Return text => (Return (universal_newlines text), w)
        | Raise e => (Raise e, w)
        end
    | Some Dir => (Raise IsADirectoryError, w)
    | None => (Raise FileNotFoundError, w)
    end.

(** [open(p, 'w')]: the file is created or truncated at once. *)
Definition open_w (p : string) : Py (L := L) unit :=
  fun w =>
    match fs w !! p with
    | Some Dir => (Raise IsADirectoryError, w)
    | _ =>
        if is_dir (fs w) (dirname p)
        then (Return tt, set_fs (<[p := File ""]> (fs w)) w)
        else (Raise FileNotFoundError, w)
    end.

(** [f.write(data)] and the flush when the [with] block closes [f]: the
    text is encoded, and a line end is written as it is. *)
Definition write_close (p data : string) : Py (L := L) unit :=
  fun w => (Return tt, set_fs (<[p := File (Utf8.encode data)]> (fs w)) w).

End Files.
End os.

(** ** [main] *)

Section Main.
Context {L : Type} `{DeviceLibrary L} `{PyRuntime}.

Definition CONFIG_SERVER_URL : string := "tcp://192.168.1.100:11020".
Definition ORGANIZATION_ID : string := "550e8400-e29b-41d4-a716-446655440000".
Definition MACHINE_ID_FILE : string := "/var/lib/cortex_agent/machine_id".

(** Lines 140-148 of [main]: the persistent machine id. *)
Definition main_machine_id : Py (L := L) string :=
  present <- os.path_exists MACHINE_ID_FILE ;;
  if present then
    content <- os.read_text MACHINE_ID_FILE ;;
    ret (Whitespace.strip content)
  else
    machine_id <- uuid4_str ;;
    os.makedirs (os.dirname MACHINE_ID_FILE) ;;;
    os.open_w MACHINE_ID_FILE ;;;
    os.write_close MACHINE_ID_FILE machine_id ;;;
    ret machine_id.

(** [f"{info}"] for the dictionary [get_network_info] builds. *)
Definition format_info (info : gmap string string) : string :=
  let item k := repr_str k +:+ ": " +:+ repr_str (default "" (info !! k)) in
  "{" +:+ item "instance_name" +:+ ", " +:+ item "network_name" +:+ ", "
  +:+ item "virtual_ipv4" +:+ ", " +:+ item "hostname" +:+ ", "
  +:+ item "version" +:+ "}".

Definition main : Py (L := L) Z :=
  machine_id <- main_machine_id ;;
  EasyTierDeviceClient.init ;;;
  ok <- EasyTierDeviceClient.start
          (CONFIG_SERVER_URL +:+ "/" +:+ ORGANIZATION_ID) (Some machine_id) ;;
  if ok then
    print "Web client connected successfully" ;;;
    print "Waiting for admin approval and network configuration..." ;;;
    print "Device will automatically join VPN networks when configured by admin" ;;;
    (* time.sleep(5) *)
    info <- EasyTierDeviceClient.get_network_info ;;
    match info with
    | Some d =>
        (if bool_decide (d = ∅) then ret tt
         else print ("Network Info: " +:+ format_info d)) ;;;
        ret 0%Z
    | None => ret 0%Z
    end
  else
    print "Failed to start web client" ;;;
    ret 1%Z.

End Main.

(** ** A host driving one client *)

Inductive Op :=
| Op_start (config_server_url : string) (machine_id : option string)
| Op_stop
| Op_get_network_info.

Inductive OpResult :=
| R_start (o : Outcome bool)
| R_stop (o : Outcome bool)
| R_get_network_info (o : Outcome (option (gmap string string))).

Section Host.
Context {L : Type} `{DeviceLibrary L} `{PyRuntime}.

Definition step (op : Op) (w : World L) : OpResult * World L :=
  match op with
  | Op_start url mid =>
      let '(o, w') := EasyTierDeviceClient.start url mid w in (R_start o, w')
  | Op_stop =>
      let '(o, w') := EasyTierDeviceClient.stop w in (R_stop o, w')
  | Op_get_network_info =>
      let '(o, w') := EasyTierDeviceClient.get_network_info w in
      (R_get_network_info o, w')
  end.

(** The host calls the methods one after the other; an exception ends the
    call that raised it, not the host. *)
Fixpoint run (ops : list Op) (w : World L) : list OpResult * World L :=
  match ops with
  | [] => ([], w)
  | op :: rest =>
      let '(r, w') := step op w in
      let '(rs, w'') := run rest w' in
      (r :: rs, w'')
  end.

End Host.

(** A call that names an instance names [n]. *)
Definition names_instance (n : string) (c : LibCall) : Prop :=
  match c with
  | Call_stop x | Call_get_network_info x => x = n
  | _ => True
  end.

(** A call that names an instance at all. *)
Definition is_instance_call (c : LibCall) : bool :=
  match c with
  | Call_stop _ | Call_get_network_info _ => true
  | _ => false
  end.

Definition started (r : OpResult) : Prop := r = R_start (Return true).
Definition stopped (r : OpResult) : Prop := r = R_stop (Return true).

(** ** Libraries to run the client against *)

(** A library that answers every call the same way. *)
Module Scripted.

Record t := {
  start_status : Z;
  error_msg : c_char_p;
  stop_status : Z;
  info_status : Z;
  info : option CortexNetworkInfo.t
}.

#[global] Instance library : DeviceLibrary t := {|
  cortex_start_web_client _ l := (start_status l, l);
  cortex_stop_web_client _ l := (stop_status l, l);
  cortex_get_web_client_network_info _ l := (info_status l, info l, l);
  easytier_common_get_error_msg l := (error_msg l, l)
|}.

End Scripted.

(** A runtime whose netloc checks accept everything and whose [repr] puts
    the text between single quotes. *)
Definition lenient_runtime : PyRuntime := {|
  bracketed_host_ok _ := true;
  nfkc_netloc_ok _ := true;
  repr_str s := "'" +:+ s +:+ "'"
|}.

Definition new_world {L : Type} (l : L) (f : gmap string Node) : World L :=
  {| library := l; calls := []; stdout := []; instance_name := None;
     urandom := fun n => N.of_nat n; drawn := 0; fs := f; fs_seen := [] |}.

(** ** The Instance Registry behind the library

    The registry lives in the library, whose sources are not part of the
    binding example; it is written here after section 4.5 of the
    specification. *)

Module Registry.

Inductive Status := Starting | Connected | Degraded | Stopped.

Record OverlaySession := {
  network_name : string;
  virtual_ipv4 : string;
  hostname : string;
  agent_version : string
}.

Record Config := {
  organization_id : string;
  machine_id : string;
  control_endpoint : string
}.

Record Instance := {
  config : Config;
  status : Status;
  sessions : list OverlaySession
}.

Record NetworkInfo := {
  info_network_name : string;
  info_virtual_ipv4 : string;
  info_hostname : string;
  info_version : string
}.

Inductive StartError := DuplicateInstanceError.
Inductive StopError := NotFoundError.

Inductive Result (E A : Type) :=
| Ok (a : A)
| Err (e : E).
Arguments Ok {E A} a.
Arguments Err {E A} e.

(** Modelled from the spec: the registry's [start], which is not among the
    sources. "start(instance_name, config) fails with
    DuplicateInstanceError if instance_name already active"; otherwise the
    instance is created, in state Starting and without sessions. *)
Definition start (instance_name : string) (c : Config)
    (r : gmap string Instance) : Result StartError (gmap string Instance) :=
  match r !! instance_name with
  | Some _ => Err DuplicateInstanceError
  | None =>
      Ok (<[instance_name := {| config := c; status := Starting; sessions := [] |}]> r)
  end.

(** Modelled from the spec: the registry's [stop], which is not among the
    sources. "stop(instance_name) fails with NotFoundError if absent;
    otherwise cascades leave to all active OverlaySessions for that
    instance and removes it". *)
Definition stop (instance_name : string) (r : gmap string Instance)
  : Result StopError (gmap string Instance) :=
  match r !! instance_name with
  | Some _ => Ok (delete instance_name r)
  | None => Err NotFoundError
  end.

(** Modelled from the spec: the registry's [get_network_info], which is not
    among the sources. It "returns a snapshot of the first/primary active
    session's {network_name, virtual_ipv4, hostname, version}; returns none
    if the instance has no active session yet". *)
Definition get_network_info (instance_name : string) (r : gmap string Instance)
  : option NetworkInfo :=
  match r !! instance_name with
  | Some i =>
      match sessions i with
      | s :: _ =>
          Some {| info_network_name := network_name s;
                  info_virtual_ipv4 := virtual_ipv4 s;
                  info_hostname := hostname s;
                  info_version := agent_version s |}
      | [] => None
      end
  | None => None
  end.

(** Modelled from the spec: the Overlay Session Manager's updates of the
    sessions of a running instance (section 4.4), as far as the registry
    shows them: a session is added when a membership is activated and
    dropped when it is revoked. *)
Definition activate (instance_name : string) (s : OverlaySession)
    (r : gmap string Instance) : gmap string Instance :=
  alter (fun i => {| config := config i; status := Connected;
                     sessions := sessions i ++ [s] |}) instance_name r.

Definition revoke (instance_name network : string) (r : gmap string Instance)
  : gmap string Instance :=
  alter (fun i => {| config := config i; status := status i;
                     sessions := filter (fun s => network_name s ≠ network) (sessions i) |})
        instance_name r.

(** What can happen to the registry. *)
Inductive Request :=
| Start (instance_name : string) (c : Config)
| Stop (instance_name : string)
| Query (instance_name : string)
| Activate (instance_name : string) (s : OverlaySession)
| Revoke (instance_name network : string).

(** A request that fails leaves the registry as it was. *)
Definition apply (r : gmap string Instance) (q : Request) : gmap string Instance :=
  match q with
  | Start n c => match start n c r with Ok r' => r' | Err _ => r end
  | Stop n => match stop n r with Ok r' => r' | Err _ => r end
  | Query _ => r
  | Activate n s => activate n s r
  | Revoke n net => revoke n net r
  end.

Definition apply_all (r : gmap string Instance) (qs : list Request)
  : gmap string Instance :=
  foldl apply r qs.

(** *** The registry as the foreign library

    Modelled from the spec: the entry points of section 6 over the
    registry. The instance is named after the organization id, taken from
    the structure or else from the path of the URL (as in the scenario of
    section 8); 0 reports success and -1 an error, whose text the message
    accessor returns. *)

Record State := {
  instances : gmap string Instance;
  last_error : c_char_p
}.

Definition instance_of (c : CortexWebClient.t) : option (string * Config) :=
  match CortexWebClient.config_server_url c with
  | Some url =>
      match @Url.urlparse lenient_runtime url with
      | Return parsed =>
          let org :=
            match CortexWebClient.organization_id c with
            | Some o => o
            | None => Str.strip (Ascii.eqb "/") (Url.path parsed)
            end in
          Some (org, {| organization_id := org;
                        machine_id := default "" (CortexWebClient.machine_id c);
                        control_endpoint := url |})
      | Raise _ => None
      end
  | None => None
  end.

Definition ffi_start (c : CortexWebClient.t) (s : State) : Z * State :=
  match instance_of c with
  | Some (name, cfg) =>
      match start name cfg (instances s) with
      | Ok r => (0%Z, {| instances := r; last_error := last_error s |})
      | Err DuplicateInstanceError =>
          ((-1)%Z, {| instances := instances s;
                      last_error := Some "DuplicateInstanceError" |})
      end
  | None => ((-1)%Z, {| instances := instances s;
                        last_error := Some "invalid configuration" |})
  end.

Definition ffi_stop (name : string) (s : State) : Z * State :=
  match stop name (instances s) with
  | Ok r => (0%Z, {| instances := r; last_error := last_error s |})
  | Err NotFoundError =>
      ((-1)%Z, {| instances := instances s; last_error := Some "NotFoundError" |})
  end.

Definition ffi_get_network_info (name : string) (s : State)
  : Z * option CortexNetworkInfo.t * State :=
  match instances s !! name with
  | Some _ =>
      (0%Z,
       match get_network_info name (instances s) with
       | Some i =>
           Some {| CortexNetworkInfo.instance_name := Some name;
                   CortexNetworkInfo.network_name := Some (info_network_name i);
                   CortexNetworkInfo.virtual_ipv4 := Some (info_virtual_ipv4 i);
                   CortexNetworkInfo.hostname := Some (info_hostname i);
                   CortexNetworkInfo.version := Some (info_version i) |}
       | None => None
       end,
       s)
  | None =>
      ((-1)%Z, None,
       {| instances := instances s; last_error := Some "NotFoundError" |})
  end.

#[global] Instance library : DeviceLibrary State := {|
  cortex_start_web_client := ffi_start;
  cortex_stop_web_client := ffi_stop;
  cortex_get_web_client_network_info := ffi_get_network_info;
  easytier_common_get_error_msg s := (last_error s, s)
|}.

Definition empty : State := {| instances := ∅; last_error := None |}.

End Registry.


(** ** Vocabulary of the statements *)

(** The machine id [start] works with: the argument, or a fresh UUID. *)
Definition start_machine_id {L} (machine_id : option string) (w : World L)
  : string :=
  match machine_id with
  | Some m => m
  | None => uuid.str (uuid.uuid4 (urandom w (drawn w)))
  end.

(** The structure [start] hands to the library. *)
Definition start_config {L} (config_server_url : string)
    (machine_id : option string) (w : World L) : CortexWebClient.t :=
  {| CortexWebClient.config_server_url := Some config_server_url;
     CortexWebClient.organization_id := None;
     CortexWebClient.machine_id := Some (start_machine_id machine_id w) |}.

(** The world in which [start] calls the library. *)
Definition start_entry {L} (config_server_url : string)
    (machine_id : option string) (w : World L) : World L :=
  log_call (Call_start (start_config config_server_url machine_id w))
    (match machine_id with
     | Some _ => w
     | None => set_drawn (S (drawn w)) w
     end).

Definition info_keys : gset string :=
  {[ "instance_name"; "network_name"; "virtual_ipv4"; "hostname"; "version" ]}.

(** The text of a field: [""] for a null pointer. *)
Definition field_text (f : c_char_p) : string := default "" f.

(** The field is null or holds well-formed UTF-8. *)
Definition field_ok (f : c_char_p) : bool := Utf8.valid (field_text f).

Definition fields_ok (i : CortexNetworkInfo.t) : bool :=
  field_ok (CortexNetworkInfo.instance_name i)
  && field_ok (CortexNetworkInfo.network_name i)
  && field_ok (CortexNetworkInfo.virtual_ipv4 i)
  && field_ok (CortexNetworkInfo.hostname i)
  && field_ok (CortexNetworkInfo.version i).

Definition snapshot (i : CortexNetworkInfo.t) : gmap string string :=
  <["version" := field_text (CortexNetworkInfo.version i)]>
  (<["hostname" := field_text (CortexNetworkInfo.hostname i)]>
  (<["virtual_ipv4" := field_text (CortexNetworkInfo.virtual_ipv4 i)]>
  (<["network_name" := field_text (CortexNetworkInfo.network_name i)]>
  (<["instance_name" := field_text (CortexNetworkInfo.instance_name i)]> ∅)))).

(** What a call answers on a client with no instance on record. *)
Definition idle_answer (r : OpResult) : Prop :=
  match r with
  | R_start o => o ≠ Return true
  | R_stop o => o = Return false
  | R_get_network_info o => o = Return None
  end.

(** An ASCII character that is not white space. *)
Definition plain (a : ascii) : Prop :=
  Str.isascii a = true ∧ Whitespace.ascii_space a = false.

(** The same, as a test. *)
Definition is_plain (a : ascii) : bool :=
  Str.isascii a && negb (Whitespace.ascii_space a).

(** The directories above the identity file can be made: none of them is
    taken by a regular file. *)
Definition parents_creatable (f : gmap string Node) : Prop :=
  ∀ d c, d ∈ os.chain (os.dirname MACHINE_ID_FILE) → f !! d ≠ Some (File c).

(** The UUID the next draw yields. *)
Definition next_uuid {L} (w : World L) : string :=
  uuid.str (uuid.uuid4 (urandom w (drawn w))).


(** *** URLs that carry the organization id in their path *)




(** *** Claims of the specification, as it words them *)

Section AsWorded.
Context {L : Type} `{DeviceLibrary L} `{PyRuntime}.

(** "[start] returns True if and only if [cortex_start_web_client] returns
    status code 0; when the status code is nonzero, [start] returns False
    and, if the error-message accessor yields a non-null message, that
    diagnostic is reported." *)
Definition start_as_worded (url : string) (mid : option string)
    (w : World L) : Prop :=
  let '(status, l) := cortex_start_web_client (start_config url mid w) (library w) in
  let '(o, w') := EasyTierDeviceClient.start url mid w in
  (o = Return true ↔ status = 0%Z)
  ∧ (status ≠ 0%Z →
     o = Return false
     ∧ ∀ m, (easytier_common_get_error_msg l).1 = Some m →
            stdout w' = stdout w ++ ["✗ Failed to start web client: " +:+ m]).

(** "If no instance has been started it returns None without calling the
    library, and if the library call returns a nonzero status or a null
    NetworkInfo pointer it also returns None; otherwise it returns a
    snapshot dictionary with the keys instance_name, network_name,
    virtual_ipv4, hostname and version." *)
Definition get_network_info_as_worded (w : World L) : Prop :=
  let '(o, w') := EasyTierDeviceClient.get_network_info w in
  match instance_name w with
  | None => o = Return None ∧ calls w' = calls w
  | Some n =>
      let '(status, info, _) := cortex_get_web_client_network_info n (library w) in
      if bool_decide (status ≠ 0%Z ∨ info = None) then o = Return None
      else ∃ d, o = Return (Some d) ∧ dom d = info_keys
  end.

End AsWorded.


(** "The persisted machine-identity file is read when it exists (its
    content, stripped of surrounding whitespace, becomes the machine_id)
    and otherwise a fresh UUID string is generated, the file's parent
    directories are created, and the UUID is written to the file;
    thereafter the same identity is read on every run." *)
Definition machine_id_as_worded {L} (w : World L) : Prop :=
  let '(o, w') := main_machine_id w in
  match fs w !! MACHINE_ID_FILE with
  | Some (File content) => o = Return (Whitespace.strip content)
  | Some Dir => True
  | None =>
      o = Return (next_uuid w)
      ∧ (∀ d, d ∈ os.chain (os.dirname MACHINE_ID_FILE) →
           fs w' !! d = Some Dir)
      ∧ fs w' !! MACHINE_ID_FILE = Some (File (next_uuid w))
      ∧ ∀ w2 : World L,
          fs w2 = fs w' → (main_machine_id w2).1 = Return (next_uuid w)
  end.

(** ** Worlds to run the statements in *)

Module Examples.

(** A structure with two of its fields null and one empty. *)
Definition partial_info : CortexNetworkInfo.t :=
  {| CortexNetworkInfo.instance_name := Some "org-123";
     CortexNetworkInfo.network_name := Some "alpha";
     CortexNetworkInfo.virtual_ipv4 := None;
     CortexNetworkInfo.hostname := Some "";
     CortexNetworkInfo.version := None |}.

(** A structure whose hostname is the single byte 255, which is not
    UTF-8. *)
Definition garbled_info : CortexNetworkInfo.t :=
  {| CortexNetworkInfo.instance_name := Some "org-123";
     CortexNetworkInfo.network_name := Some "alpha";
     CortexNetworkInfo.virtual_ipv4 := Some "10.144.0.2";
     CortexNetworkInfo.hostname := Some (String "255" "");
     CortexNetworkInfo.version := Some "2.4.0" |}.

(** A library every call to which succeeds. *)
Definition agreeable (i : option CortexNetworkInfo.t) : Scripted.t :=
  {| Scripted.start_status := 0; Scripted.error_msg := None;
     Scripted.stop_status := 0; Scripted.info_status := 0;
     Scripted.info := i |}.

(** A library that refuses to start, with the given message. *)
Definition refusing (msg : c_char_p) : Scripted.t :=
  {| Scripted.start_status := -1; Scripted.error_msg := msg;
     Scripted.stop_status := -1; Scripted.info_status := -1;
     Scripted.info := None |}.

(** A file system that holds the identity file, with a line end after the
    identity. *)
Definition provisioned : gmap string Node :=
  <["/var/lib/cortex_agent/machine_id" := File "m-1
"]> (<["/var/lib/cortex_agent" := Dir]> (<["/var/lib" := Dir]> (<["/var" := Dir]> ∅))).

(** The identity file holds the single byte 255, which is not UTF-8. *)
Definition garbled_identity : gmap string Node :=
  <["/var/lib/cortex_agent/machine_id" := File (String "255" "")]>
    (<["/var/lib/cortex_agent" := Dir]>
       (<["/var/lib" := Dir]> (<["/var" := Dir]> ∅))).

(** The identity file holds "a", a carriage return, "b" and a line feed. *)
Definition carriage_identity : gmap string Node :=
  <["/var/lib/cortex_agent/machine_id"
      := File (String "a" (String "013" (String "b" (String "010" ""))))]>
    (<["/var/lib/cortex_agent" := Dir]>
       (<["/var/lib" := Dir]> (<["/var" := Dir]> ∅))).

(** /var/lib is a regular file, so that no directory can be made below
    it. *)
Definition blocked : gmap string Node :=
  <["/var/lib" := File "x"]> (<["/var" := Dir]> ∅).

(** A process that has not started anything. *)
Definition idle {L} (l : L) : World L := new_world l ∅.

(** A process whose client has "org-123" on record. *)
Definition running {L} (l : L) : World L :=
  set_instance_name (Some "org-123") (new_world l ∅).

End Examples.

(** ** Vocabulary of the further properties *)

Definition first_char (s : string) : option ascii :=
  match s with
  | "" => None
  | String c _ => Some c
  end.

Fixpoint last_char (s : string) : option ascii :=
  match s with
  | "" => None
  | String c "" => Some c
  | String _ r => last_char r
  end.

(** A library call that stops an instance. *)
Definition is_stop_call (c : LibCall) : bool :=
  match c with
  | Call_stop _ => true
  | _ => false
  end.

(** A lower-case hexadecimal digit. *)
Definition is_hex (c : ascii) : bool := Str.is_digit c || Str.in_range 97 102 c.

(** What [str(UUID)] of a version-4 UUID has at position [i]: hyphens
    after 8, 12, 16 and 20 digits, the version digit 4, and a variant
    digit among 8, 9, a, b. *)
Definition uuid4_char (i : nat) (c : ascii) : bool :=
  if Nat.eqb i 8 || Nat.eqb i 13 || Nat.eqb i 18 || Nat.eqb i 23
  then Ascii.eqb c "-"
  else if Nat.eqb i 14 then Ascii.eqb c "4"
  else if Nat.eqb i 19
       then Ascii.eqb c "8" || Ascii.eqb c "9" || Ascii.eqb c "a"
            || Ascii.eqb c "b"
       else is_hex c.

Fixpoint chars_from (i : nat) (s : string) : bool :=
  match s with
  | "" => true
  | String c r => uuid4_char i c && chars_from (S i) r
  end.

Definition is_uuid4_text (s : string) : bool :=
  Nat.eqb (String.length s) 36 && chars_from 0 s.

(** The URL [main] starts the client with. *)
Definition main_url : string := CONFIG_SERVER_URL +:+ "/" +:+ ORGANIZATION_ID.

(** Some directory above the identity file is taken by a regular file. *)
Definition parent_is_file (f : gmap string Node) : Prop :=
  ∃ d c, d ∈ os.chain (os.dirname MACHINE_ID_FILE) ∧ f !! d = Some (File c).

(** A file system whose identity file is blank, as an interrupted first
    run leaves it. *)
Definition blank_identity : gmap string Node :=
  <["/var/lib/cortex_agent/machine_id" := File ""]>
    (<["/var/lib/cortex_agent" := Dir]>
       (<["/var/lib" := Dir]> (<["/var" := Dir]> ∅))).

(** A file system in which /var/lib is a regular file. *)
Definition blocked_parent : gmap string Node :=
  <["/var/lib" := File "x"]> (<["/var" := Dir]> ∅).

(** A character of a URL that [urlparse] cannot object to: ASCII, and not
    a square bracket. *)
Definition unbracketed_ascii (c : ascii) : bool :=
  Str.isascii c && negb (Ascii.eqb c "[") && negb (Ascii.eqb c "]").

(** The start of the text is a plain character, and so is its end. *)
Definition plain_ends (s : string) : Prop :=
  (∃ a, first_char s = Some a ∧ plain a)
  ∧ (∃ b, last_char s = Some b ∧ plain b).

(** The file system a first run of [main] leaves, starting from an empty
    one with the randomness of [new_world]. *)
Definition after_first_run : gmap string Node :=
  <["/var/lib/cortex_agent/machine_id"
      := File "00000000-0000-4000-8000-000000000000"]>
    (<["/var/lib/cortex_agent/machine_id" := File ""]>
       (<["/var/lib/cortex_agent" := Dir]>
          (<["/var/lib" := Dir]> (<["/var" := Dir]> ∅)))).

(** * Properties *)

(** ** Splitting a URL *)

Section StrFacts.

Lemma append_cons c a b : String c a +:+ b = String c (a +:+ b).
Proof. reflexivity. Qed.

Lemma append_nil_l b : "" +:+ b = b.
Proof. reflexivity. Qed.


Lemma forallb_append p a b :
  Str.forallb p (a +:+ b) = Str.forallb p a && Str.forallb p b.
Proof.
  induction a as [|d a IH]; [reflexivity|].
  rewrite append_cons. cbn [Str.forallb]. rewrite IH. apply andb_assoc.
Qed.

Lemma forallb_impl (p q : ascii → bool) s :
  (∀ c, p c = true → q c = true) →
  Str.forallb p s = true → Str.forallb q s = true.
Proof.
  intros Hpq. induction s as [|c s IH]; [done|].
  cbn [Str.forallb]. intros [Hc Hs]%andb_true_iff.
  by rewrite (Hpq c Hc), IH.
Qed.

Lemma forallb_not_contains p c s :
  p c = false → Str.forallb p s = true → Str.contains c s = false.
Proof.
  intros Hc. induction s as [|d s IH]; [done|].
  cbn [Str.forallb Str.contains]. intros [Hd Hs]%andb_true_iff.
  rewrite (IH Hs), orb_false_r.
  destruct (Ascii.eqb_spec c d) as [->|]; [congruence|done].
Qed.







End StrFacts.

Section UrlFacts.
Context `{PyRuntime}.


End UrlFacts.

(** ** How the monad computes *)

Ltac py_unfold :=
  unfold EasyTierDeviceClient.start, EasyTierDeviceClient.stop,
    EasyTierDeviceClient.get_network_info, EasyTierDeviceClient.init,
    lib_start, lib_stop, lib_get_network_info, lib_get_error_msg,
    decode_or_empty, print, get_instance_name, assign_instance_name,
    uuid4_str, bind, ret, raise, lift in *.

Section ClientFacts.
Context {L : Type} `{DeviceLibrary L} `{PyRuntime}.

Implicit Types w : World L.

Lemma truthy_name_Some n : truthy_name (Some n) = true ↔ n ≠ "".
Proof. destruct n; cbn; split; intros; congruence. Qed.

Lemma truthy_name_false n :
  truthy_name n = false ↔ n = None ∨ n = Some "".
Proof.
  destruct n as [[|c s]|]; cbn; split; intros Hn; try tauto; try congruence.
  destruct Hn; congruence.
Qed.

(** [stop] when no instance is recorded. *)
Lemma stop_idle w :
  truthy_name (instance_name w) = false →
  EasyTierDeviceClient.stop w
  = (Return false, put_line "No active instance to stop" w).
Proof. intros Hn. py_unfold. simpl. rewrite Hn. reflexivity. Qed.

(** [stop] when an instance is recorded. *)
Lemma stop_active w n :
  instance_name w = Some n → n ≠ "" →
  EasyTierDeviceClient.stop w
  = let w1 := log_call (Call_stop n) w in
    let '(r, l) := cortex_stop_web_client n (library w) in
    if (r =? 0)%Z
    then (Return true,
          set_instance_name None
            (put_line "✓ Web client stopped" (set_library l w1)))
    else (Return false,
          put_line "✗ Failed to stop web client" (set_library l w1)).
Proof.
  intros Hn Hne. py_unfold. simpl. rewrite Hn. simpl.
  assert (Str.truthy n = true) as -> by (destruct n; cbn; congruence).
  simpl. unfold Utf8.encode.
  destruct (cortex_stop_web_client n (library w)) as [r l].
  destruct (r =? 0)%Z; reflexivity.
Qed.

(** [get_network_info] when no instance is recorded. *)
Lemma get_network_info_idle w :
  truthy_name (instance_name w) = false →
  EasyTierDeviceClient.get_network_info w = (Return None, w).
Proof. intros Hn. py_unfold. simpl. rewrite Hn. reflexivity. Qed.

Lemma decode_or_empty_ok (f : c_char_p) w :
  field_ok f = true → decode_or_empty f w = (Return (field_text f), w).
Proof.
  unfold field_ok, field_text, decode_or_empty, lift, ret, Utf8.decode.
  destruct f as [[|c s]|]; simpl; try reflexivity.
  intros ->. reflexivity.
Qed.

Lemma decode_or_empty_bad (f : c_char_p) w :
  field_ok f = false → decode_or_empty f w = (Raise UnicodeDecodeError, w).
Proof.
  unfold field_ok, field_text, decode_or_empty, lift, ret, Utf8.decode.
  destruct f as [[|c s]|]; simpl; try discriminate.
  intros ->. reflexivity.
Qed.

(** [get_network_info] when an instance is recorded: one call, whose
    answer decides the result. *)
Lemma get_network_info_active w n r info l :
  instance_name w = Some n → n ≠ "" →
  cortex_get_web_client_network_info n (library w) = (r, info, l) →
  EasyTierDeviceClient.get_network_info w
  = (match info with
     | Some i =>
         if (r =? 0)%Z
         then if fields_ok i then Return (Some (snapshot i))
              else Raise UnicodeDecodeError
         else Return None
     | None => Return None
     end,
     set_library l (log_call (Call_get_network_info n) w)).
Proof.
  intros Hn Hne Hlib.
  unfold EasyTierDeviceClient.get_network_info, get_instance_name,
    lib_get_network_info, bind, ret.
  rewrite Hn. simpl.
  assert (Str.truthy n = true) as -> by (destruct n; cbn; congruence).
  simpl. unfold Utf8.encode. rewrite Hlib.
  destruct info as [i|]; [|reflexivity].
  destruct (r =? 0)%Z; [|reflexivity].
  unfold fields_ok, snapshot.
  repeat match goal with
  | |- context [decode_or_empty ?f ?w'] =>
      destruct (field_ok f) eqn:?;
      [ rewrite (decode_or_empty_ok f w') by assumption
      | rewrite (decode_or_empty_bad f w') by assumption; reflexivity ]
  end.
  reflexivity.
Qed.

(** [start], call by call. *)
Lemma start_eq url mid w :
  EasyTierDeviceClient.start url mid w
  = let '(r, l) := cortex_start_web_client (start_config url mid w) (library w) in
    let w2 := set_library l (start_entry url mid w) in
    if (r =? 0)%Z then
      match Url.urlparse url with
      | Return parsed =>
          let name := Str.strip (Ascii.eqb "/") (Url.path parsed) in
          (Return true,
           put_line ("  Config Server: " +:+ url)
             (put_line ("  Machine ID: " +:+ start_machine_id mid w)
                (put_line ("  Organization ID: " +:+ name)
                   (put_line "✓ Web client started successfully"
                      (set_instance_name (Some name) w2)))))
      | Raise e => (Raise e, w2)
      end
    else
      let '(m, l') := easytier_common_get_error_msg l in
      let w3 := set_library l' (log_call Call_get_error_msg w2) in
      if truthy_bytes m then
        if Utf8.valid (default "" m)
        then (Return false,
              put_line ("✗ Failed to start web client: " +:+ default "" m) w3)
        else (Raise UnicodeDecodeError, w3)
      else (Return false, w3).
Proof.
  unfold EasyTierDeviceClient.start, start_entry, start_config, start_machine_id.
  py_unfold. unfold Utf8.encode, Utf8.decode.
  destruct mid as [m|]; simpl;
    (destruct (cortex_start_web_client _ (library w)) as [r l]; simpl;
     destruct (r =? 0)%Z; simpl;
     [ destruct (Url.urlparse url); reflexivity
     | destruct (easytier_common_get_error_msg l) as [msg l']; simpl;
       destruct (truthy_bytes msg); simpl; [|reflexivity];
       destruct (Utf8.valid (default "" msg)); reflexivity ]).
Qed.

(** The calls of [start]: the one that starts the client, and at most the
    one for the error message. *)
Lemma start_calls url mid w :
  ∃ rest,
    calls (EasyTierDeviceClient.start url mid w).2
      = calls w ++ Call_start (start_config url mid w) :: rest
    ∧ Forall (λ c, c = Call_get_error_msg) rest.
Proof.
  rewrite start_eq.
  destruct (cortex_start_web_client _ (library w)) as [r l].
  destruct (r =? 0)%Z.
  - exists []. destruct (Url.urlparse url); destruct mid; simpl; auto 10.
  - destruct (easytier_common_get_error_msg l) as [m l'].
    exists [Call_get_error_msg].
    destruct (truthy_bytes m); [destruct (Utf8.valid _)|];
      destruct mid; simpl; rewrite <- app_assoc; simpl; auto 10.
Qed.

(** *** What one call does to the record and to the log *)

Lemma start_effect url mid w o w' :
  EasyTierDeviceClient.start url mid w = (o, w') →
  (∃ new, calls w' = calls w ++ new
          ∧ Forall (λ c, is_instance_call c = false) new)
  ∧ (o ≠ Return true → instance_name w' = instance_name w)
  ∧ (o = Return true →
     ∃ parsed, Url.urlparse url = Return parsed
       ∧ instance_name w'
         = Some (Str.strip (Ascii.eqb "/") (Url.path parsed))).
Proof.
  rewrite start_eq.
  destruct (cortex_start_web_client _ (library w)) as [r l].
  assert (calls (start_entry url mid w)
          = calls w ++ [Call_start (start_config url mid w)]) as Hentry
    by (destruct mid; reflexivity).
  assert (instance_name (start_entry url mid w) = instance_name w) as Hsame
    by (destruct mid; reflexivity).
  cbv zeta.
  destruct (r =? 0)%Z.
  - destruct (Url.urlparse url) as [parsed|e]; intros Heq;
      injection Heq as <- <-; cbn [calls instance_name put_line set_library
        set_instance_name]; rewrite ?Hentry, ?Hsame.
    + split; [|split]; [|congruence|eauto].
      eexists [_]. split; [reflexivity|]. repeat constructor.
    + split; [|split]; [|done|discriminate].
      eexists [_]. split; [reflexivity|]. repeat constructor.
  - destruct (easytier_common_get_error_msg l) as [m l'].
    destruct (truthy_bytes m); [destruct (Utf8.valid _)|]; intros Heq;
      injection Heq as <- <-; cbn [calls instance_name put_line set_library
        set_instance_name log_call]; rewrite ?Hentry, ?Hsame;
      (split; [|split]; [|done|discriminate]);
      eexists [_; _]; rewrite <- app_assoc; (split; [reflexivity|]);
      repeat constructor.
Qed.

Lemma stop_effect w o w' :
  EasyTierDeviceClient.stop w = (o, w') →
  (truthy_name (instance_name w) = false ∧ o = Return false
   ∧ calls w' = calls w ∧ instance_name w' = instance_name w)
  ∨ (∃ n, instance_name w = Some n ∧ n ≠ ""
       ∧ calls w' = calls w ++ [Call_stop n]
       ∧ (o = Return true ∧ instance_name w' = None
          ∨ o = Return false ∧ instance_name w' = Some n)).
Proof.
  destruct (truthy_name (instance_name w)) eqn:Ht.
  - destruct (instance_name w) as [n|] eqn:Hn; [|discriminate].
    apply truthy_name_Some in Ht.
    rewrite (stop_active w n Hn Ht). simpl.
    destruct (cortex_stop_web_client n (library w)) as [r l].
    intros Hs. right. exists n.
    destruct (r =? 0)%Z; simplify_eq; simpl; auto 10.
  - rewrite (stop_idle w Ht). intros ?. simplify_eq. left. auto.
Qed.

Lemma get_network_info_effect w o w' :
  EasyTierDeviceClient.get_network_info w = (o, w') →
  (truthy_name (instance_name w) = false ∧ o = Return None ∧ w' = w)
  ∨ (∃ n, instance_name w = Some n ∧ n ≠ ""
       ∧ calls w' = calls w ++ [Call_get_network_info n]
       ∧ instance_name w' = Some n).
Proof.
  destruct (truthy_name (instance_name w)) eqn:Ht.
  - destruct (instance_name w) as [n|] eqn:Hn; [|discriminate].
    apply truthy_name_Some in Ht.
    destruct (cortex_get_web_client_network_info n (library w))
      as [[r info] l] eqn:Hl.
    rewrite (get_network_info_active w n r info l Hn Ht Hl).
    intros ?. simplify_eq. right. exists n. simpl. auto.
  - rewrite (get_network_info_idle w Ht). intros ?. simplify_eq. left. auto.
Qed.

(** *** A run of calls without a successful [start] *)

Lemma run_cons op ops w :
  run (op :: ops) w
  = let '(r, w1) := step op w in
    let '(rs, w2) := run ops w1 in (r :: rs, w2).
Proof. reflexivity. Qed.

(** While nothing is on record, nothing names an instance. *)
Lemma run_idle ops : ∀ w rs w',
  run ops w = (rs, w') →
  instance_name w = None →
  Forall (λ r, ¬ started r) rs →
  instance_name w' = None
  ∧ Forall idle_answer rs
  ∧ ∃ new, calls w' = calls w ++ new
           ∧ Forall (λ c, is_instance_call c = false) new.
Proof.
  induction ops as [|op ops IH]; intros w rs w' Hrun Hnone Hns.
  - simpl in Hrun. simplify_eq. split; [done|]. split; [constructor|].
    exists []. by rewrite app_nil_r.
  - rewrite run_cons in Hrun.
    destruct (step op w) as [r w1] eqn:Hstep.
    destruct (run ops w1) as [rs1 w2] eqn:Hrest. simplify_eq.
    apply Forall_cons in Hns as [Hr Hns].
    assert (instance_name w1 = None ∧ idle_answer r
            ∧ ∃ new, calls w1 = calls w ++ new
                     ∧ Forall (λ c, is_instance_call c = false) new)
      as (Hn1 & Hans & new1 & Hc1 & Hf1).
    { destruct op as [url mid| |]; simpl in Hstep.
      - destruct (EasyTierDeviceClient.start url mid w) as [o wx] eqn:Hs.
        simplify_eq.
        destruct (start_effect _ _ _ _ _ Hs) as (Hc & Hkeep & _).
        assert (o ≠ Return true) as Ho by (intros ->; by apply Hr).
        split; [by rewrite Hkeep|]. split; [exact Ho|exact Hc].
      - destruct (EasyTierDeviceClient.stop w) as [o wx] eqn:Hs. simplify_eq.
        destruct (stop_effect _ _ _ Hs)
          as [(_ & -> & Hc & Hi)|(n & Hn & _)]; [|congruence].
        split; [congruence|]. split; [done|].
        exists []. by rewrite app_nil_r.
      - destruct (EasyTierDeviceClient.get_network_info w) as [o wx] eqn:Hs.
        simplify_eq.
        destruct (get_network_info_effect _ _ _ Hs)
          as [(_ & -> & ->)|(n & Hn & _)]; [|congruence].
        split; [done|]. split; [done|].
        exists []. by rewrite app_nil_r. }
    destruct (IH _ _ _ Hrest Hn1 Hns) as (Hn2 & Hans2 & new2 & Hc2 & Hf2).
    split; [done|]. split; [by constructor|].
    exists (new1 ++ new2). rewrite Hc2, Hc1, app_assoc.
    split; [done|]. by apply Forall_app.
Qed.

(** While [n] is on record, every call that names an instance names [n],
    and [n] stays on record until a [stop] succeeds. *)
Lemma run_session n ops : ∀ w rs w',
  run ops w = (rs, w') →
  instance_name w = Some n →
  Forall (λ r, ¬ started r) rs →
  (∃ new, calls w' = calls w ++ new ∧ Forall (names_instance n) new)
  ∧ (Forall (λ r, ¬ stopped r) rs → instance_name w' = Some n).
Proof.
  induction ops as [|op ops IH]; intros w rs w' Hrun Hname Hns.
  - simpl in Hrun. simplify_eq. split; [|done].
    exists []. by rewrite app_nil_r.
  - rewrite run_cons in Hrun.
    destruct (step op w) as [r w1] eqn:Hstep.
    destruct (run ops w1) as [rs1 w2] eqn:Hrest. simplify_eq.
    apply Forall_cons in Hns as [Hr Hns].
    assert ((∃ new, calls w1 = calls w ++ new ∧ Forall (names_instance n) new)
            ∧ (instance_name w1 = Some n
               ∨ stopped r ∧ instance_name w1 = None))
      as ((new1 & Hc1 & Hf1) & Hn1).
    { destruct op as [url mid| |]; simpl in Hstep.
      - destruct (EasyTierDeviceClient.start url mid w) as [o wx] eqn:Hs.
        simplify_eq.
        destruct (start_effect _ _ _ _ _ Hs) as ((new & Hc & Hf) & Hkeep & _).
        assert (o ≠ Return true) as Ho by (intros ->; by apply Hr).
        split; [|left; by rewrite Hkeep].
        exists new. split; [done|].
        eapply Forall_impl; [exact Hf|].
        intros [] ?; simpl in *; done.
      - destruct (EasyTierDeviceClient.stop w) as [o wx] eqn:Hs. simplify_eq.
        destruct (stop_effect _ _ _ Hs)
          as [(_ & -> & Hc & Hi)|(m & Hm & _ & Hc & Ho)].
        + split; [|left; congruence]. exists []. by rewrite app_nil_r.
        + simplify_eq. split.
          * exists [Call_stop n]. split; [done|]. by repeat constructor.
          * destruct Ho as [[-> Hi]|[-> Hi]]; [right|left]; done.
      - destruct (EasyTierDeviceClient.get_network_info w) as [o wx] eqn:Hs.
        simplify_eq.
        destruct (get_network_info_effect _ _ _ Hs)
          as [(_ & -> & ->)|(m & Hm & _ & Hc & Hi)].
        + split; [|by left]. exists []. by rewrite app_nil_r.
        + simplify_eq. split; [|by left].
          exists [Call_get_network_info n]. split; [done|].
          by repeat constructor. }
    destruct Hn1 as [Hn1|[Hstop Hn1]].
    + destruct (IH _ _ _ Hrest Hn1 Hns) as ((new2 & Hc2 & Hf2) & Hkeep).
      split.
      * exists (new1 ++ new2). rewrite Hc2, Hc1, app_assoc.
        split; [done|]. by apply Forall_app.
      * intros Hnostop. apply Forall_cons in Hnostop as [_ Hnostop]. auto.
    + destruct (run_idle _ _ _ _ Hrest Hn1 Hns) as (_ & _ & new2 & Hc2 & Hf2).
      split.
      * exists (new1 ++ new2). rewrite Hc2, Hc1, app_assoc.
        split; [done|]. apply Forall_app. split; [done|].
        eapply Forall_impl; [exact Hf2|].
        intros [] ?; simpl in *; done.
      * intros Hnostop. apply Forall_cons in Hnostop as [Hnot _]. done.
Qed.

End ClientFacts.

(** ** The wrapper *)

Section Wrapper.
Context {L : Type} `{DeviceLibrary L} `{PyRuntime}.

Implicit Types w : World L.

(** C10. Whatever the arguments and the state, the one structure [start]
    hands to [cortex_start_web_client] carries the URL and the machine id
    and a null [organization_id]; the only other call [start] can make is
    the one for the error message. *)
Theorem start_leaves_organization_id_null url mid w :
  ∃ config rest,
    calls (EasyTierDeviceClient.start url mid w).2
      = calls w ++ Call_start config :: rest
    ∧ CortexWebClient.organization_id config = None
    ∧ CortexWebClient.config_server_url config = Some (Utf8.encode url)
    ∧ CortexWebClient.machine_id config
        = Some (Utf8.encode (start_machine_id mid w))
    ∧ Forall (λ c, c = Call_get_error_msg) rest.
Proof.
  destruct (start_calls url mid w) as (rest & Hcalls & Hrest).
  exists (start_config url mid w), rest. auto 10.
Qed.

(** C5. [stop] on a client with no instance on record (a client just
    initialised, or one whose instance was stopped) returns [False]; it
    calls nothing in the library and changes neither the library's state
    nor the recorded name nor the files, and prints one line. *)
Theorem stop_unknown_fails_without_effect w :
  (∃ w0, EasyTierDeviceClient.init w0 = (Return tt, w))
  ∨ (∃ w0, EasyTierDeviceClient.stop w0 = (Return true, w))
  ∨ instance_name w = None →
  ∃ w', EasyTierDeviceClient.stop w = (Return false, w')
    ∧ calls w' = calls w
    ∧ library w' = library w
    ∧ instance_name w' = instance_name w
    ∧ fs w' = fs w ∧ fs_seen w' = fs_seen w ∧ drawn w' = drawn w
    ∧ stdout w' = stdout w ++ ["No active instance to stop"].
Proof.
  intros Hw.
  assert (instance_name w = None) as Hnone.
  { destruct Hw as [[w0 Hi]|[[w0 Hs]|Hn]]; [| |exact Hn].
    - unfold EasyTierDeviceClient.init, assign_instance_name in Hi.
      by simplify_eq.
    - destruct (truthy_name (instance_name w0)) eqn:Ht.
      + destruct (instance_name w0) as [n|] eqn:Hn; [|discriminate].
        apply truthy_name_Some in Ht.
        rewrite (stop_active w0 n Hn Ht) in Hs. simpl in Hs.
        destruct (cortex_stop_web_client n (library w0)) as [r l].
        destruct (r =? 0)%Z; by simplify_eq.
      + rewrite (stop_idle w0 Ht) in Hs. discriminate. }
  eexists. rewrite stop_idle by (rewrite Hnone; reflexivity).
  split; [reflexivity|]. simpl. auto 10.
Qed.

(** C9. A dictionary that [get_network_info] returns has exactly the five
    keys, each bound to a string: the text of the field of the structure
    the library stored, and [""] where that field is a null pointer. *)
Theorem network_info_snapshot_total w d w' :
  EasyTierDeviceClient.get_network_info w = (Return (Some d), w') →
  ∃ n i l,
    instance_name w = Some n
    ∧ cortex_get_web_client_network_info n (library w) = (0%Z, Some i, l)
    ∧ dom d = info_keys
    ∧ d !! "instance_name" = Some (default "" (CortexNetworkInfo.instance_name i))
    ∧ d !! "network_name" = Some (default "" (CortexNetworkInfo.network_name i))
    ∧ d !! "virtual_ipv4" = Some (default "" (CortexNetworkInfo.virtual_ipv4 i))
    ∧ d !! "hostname" = Some (default "" (CortexNetworkInfo.hostname i))
    ∧ d !! "version" = Some (default "" (CortexNetworkInfo.version i))
    ∧ (∀ k, k ∈ info_keys → ∃ s : string, d !! k = Some s).
Proof.
  intros Hg.
  destruct (truthy_name (instance_name w)) eqn:Ht.
  2:{ rewrite (get_network_info_idle w Ht) in Hg. discriminate. }
  destruct (instance_name w) as [n|] eqn:Hn; [|discriminate].
  apply truthy_name_Some in Ht.
  destruct (cortex_get_web_client_network_info n (library w)) as [[r info] l] eqn:Hl.
  rewrite (get_network_info_active w n r info l Hn Ht Hl) in Hg.
  destruct info as [i|]; [|discriminate].
  destruct (r =? 0)%Z eqn:Hr; [|discriminate].
  destruct (fields_ok i); [|discriminate].
  apply Z.eqb_eq in Hr. subst r. simplify_eq.
  exists n, i, l. split; [reflexivity|]. split; [exact Hl|].
  assert (dom (snapshot i) = info_keys) as Hdom.
  { unfold snapshot, info_keys. rewrite !dom_insert_L, dom_empty_L. set_solver. }
  split; [exact Hdom|].
  repeat split; try reflexivity.
  intros k Hk. rewrite <- Hdom in Hk. apply elem_of_dom in Hk as [s Hs]. eauto.
Qed.

(** The URL of the scenario in the specification has the organization id
    for its path, whatever the runtime's netloc checks answer. *)
Example urlparse_scenario :
  Url.urlparse "tcp://host:11020/org-123"
  = Return {| Url.scheme := "tcp"; Url.netloc := "host:11020";
              Url.path := "/org-123"; Url.params := ""; Url.query := "";
              Url.fragment := "" |}.
Proof. reflexivity. Qed.


(** C1. When [start] returns [True] the URL has parsed, and the client has
    the path of the URL, stripped of the slashes at its ends, on record as
    its instance name. In any run of calls that follows, up to the next
    successful [start], every library call that names an instance names
    that one; and as long as no [stop] has succeeded, a [stop] and a
    [get_network_info] each make their library call, with exactly that
    name (given that it is not empty). *)
Theorem start_records_path_and_calls_pass_it url mid w w1 :
  EasyTierDeviceClient.start url mid w = (Return true, w1) →
  ∃ parsed,
    Url.urlparse url = Return parsed
    ∧ let org := Str.strip (Ascii.eqb "/") (Url.path parsed) in
      instance_name w1 = Some org
      ∧ ∀ ops rs w2,
          run ops w1 = (rs, w2) →
          Forall (λ r, ¬ started r) rs →
          (∃ new, calls w2 = calls w1 ++ new
                  ∧ Forall (names_instance (Utf8.encode org)) new)
          ∧ (org ≠ "" → Forall (λ r, ¬ stopped r) rs →
             calls (EasyTierDeviceClient.stop w2).2
               = calls w2 ++ [Call_stop (Utf8.encode org)]
             ∧ calls (EasyTierDeviceClient.get_network_info w2).2
               = calls w2 ++ [Call_get_network_info (Utf8.encode org)]).
Proof.
  intros Hstart.
  destruct (start_effect _ _ _ _ _ Hstart) as (_ & _ & Hrec).
  destruct (Hrec eq_refl) as (parsed & Hparse & Hname).
  exists parsed. split; [exact Hparse|]. cbv zeta. split; [exact Hname|].
  intros ops rs w2 Hrun Hns.
  destruct (run_session _ _ _ _ _ Hrun Hname Hns) as (Hcalls & Hkeep).
  split; [exact Hcalls|].
  intros Horg Hnostop. specialize (Hkeep Hnostop). unfold Utf8.encode.
  split.
  - destruct (EasyTierDeviceClient.stop w2) as [o wx] eqn:Hs.
    destruct (stop_effect _ _ _ Hs) as [(Ht & _)|(n & Hn & _ & Hc & _)].
    + rewrite Hkeep in Ht. apply truthy_name_false in Ht as [?|?]; congruence.
    + simpl. congruence.
  - destruct (EasyTierDeviceClient.get_network_info w2) as [o wx] eqn:Hg.
    destruct (get_network_info_effect _ _ _ Hg)
      as [(Ht & _)|(n & Hn & _ & Hc & _)].
    + rewrite Hkeep in Ht. apply truthy_name_false in Ht as [?|?]; congruence.
    + simpl. congruence.
Qed.

(** C6. When [stop] returns [True] no instance name is on record any more.
    In any run of calls that follows, up to the next successful [start],
    every [get_network_info] returns [None] and every [stop] returns
    [False], without a library call that names an instance; a successful
    [start] puts a name on record again. *)
Theorem stop_clears_instance_name w w1 :
  EasyTierDeviceClient.stop w = (Return true, w1) →
  instance_name w1 = None
  ∧ ∀ ops rs w2,
      run ops w1 = (rs, w2) →
      Forall (λ r, ¬ started r) rs →
      Forall idle_answer rs
      ∧ (∃ new, calls w2 = calls w1 ++ new
                ∧ Forall (λ c, is_instance_call c = false) new)
      ∧ instance_name w2 = None
      ∧ ∀ url mid w3,
          EasyTierDeviceClient.start url mid w2 = (Return true, w3) →
          ∃ n, instance_name w3 = Some n.
Proof.
  intros Hstop.
  assert (instance_name w1 = None) as Hnone.
  { destruct (stop_effect _ _ _ Hstop)
      as [(_ & ? & _)|(n & _ & _ & _ & [[_ Hi]|[? _]])]; congruence. }
  split; [exact Hnone|].
  intros ops rs w2 Hrun Hns.
  destruct (run_idle _ _ _ _ Hrun Hnone Hns) as (Hn2 & Hans & Hcalls).
  repeat split; try done.
  intros url mid w3 Hstart.
  destruct (start_effect _ _ _ _ _ Hstart) as (_ & _ & Hrec).
  destruct (Hrec eq_refl) as (parsed & _ & Hname). eauto.
Qed.

(** C2, as the code has it. [start] returns [True] only when
    [cortex_start_web_client] returned 0, and [False] only when it
    returned another status. With a URL that [urlparse] accepts, status 0
    makes [start] return [True]. With another status and an error message
    that is null, empty or well-formed UTF-8, [start] returns [False]; it
    has printed the message if the message is neither null nor empty
    ([if error_msg:]), and nothing otherwise. *)
Theorem start_status_decides_result url mid w status l m l' :
  cortex_start_web_client (start_config url mid w) (library w) = (status, l) →
  easytier_common_get_error_msg l = (m, l') →
  ∀ o w', EasyTierDeviceClient.start url mid w = (o, w') →
  (o = Return true → status = 0%Z)
  ∧ (o = Return false → status ≠ 0%Z)
  ∧ (status = 0%Z →
     ∀ parsed, Url.urlparse url = Return parsed → o = Return true)
  ∧ (status ≠ 0%Z →
     Utf8.valid (field_text m) = true →
     o = Return false
     ∧ (m = None ∨ m = Some "" → stdout w' = stdout w)
     ∧ (∀ text, m = Some text → text ≠ "" →
        stdout w' = stdout w ++ ["✗ Failed to start web client: " +:+ text])).
Proof.
  intros Hlib Hmsg o w'. rewrite start_eq, Hlib. cbv beta iota zeta.
  rewrite Hmsg. cbv beta iota zeta.
  assert (stdout (start_entry url mid w) = stdout w) as Hout
    by (destruct mid; reflexivity).
  destruct (status =? 0)%Z eqn:Hz.
  - apply Z.eqb_eq in Hz.
    destruct (Url.urlparse url) as [parsed|e]; intros Heq;
      apply pair_equal_spec in Heq as [Ho Hw]; subst o w';
      (split; [done|]; split; [discriminate|]; split; [|done]);
      intros _ parsed'; [done|discriminate].
  - apply Z.eqb_neq in Hz. unfold field_text.
    destruct m as [[|c text]|];
      cbn [truthy_bytes Str.truthy Str.is_empty negb default from_option id].
    + intros Heq. apply pair_equal_spec in Heq as [Ho Hw]. subst o w'.
      cbn [stdout set_library log_call]. rewrite Hout.
      split; [discriminate|]. split; [done|]. split; [done|]. intros _ _.
      split; [done|]. split; [done|]. by intros t [= <-].
    + destruct (Utf8.valid (String c text)) eqn:Hv; intros Heq;
        apply pair_equal_spec in Heq as [Ho Hw]; subst o w';
        cbn [stdout set_library log_call put_line]; rewrite Hout;
        (split; [discriminate|]; split; [done|]; split; [done|]);
        intros _ Hv'; [|discriminate].
      split; [done|]. split; [intros [?|?]; discriminate|].
      by intros t [= <-] _.
    + intros Heq. apply pair_equal_spec in Heq as [Ho Hw]. subst o w'.
      cbn [stdout set_library log_call]. rewrite Hout.
      split; [discriminate|]. split; [done|]. split; [done|]. intros _ _.
      split; [done|]. split; [done|]. intros t [=].
Qed.

(** C4, as the code has it. With no instance name on record (none, or the
    empty name of a URL without a path) [get_network_info] returns [None]
    and leaves the whole state, the log of library calls included, as it
    was. With a name on record it makes one call; a nonzero status or a
    pointer left null gives [None]; status 0 with a structure gives the
    dictionary of the five keys if every field is null or well-formed
    UTF-8, and otherwise decoding raises. *)
Theorem get_network_info_cases w :
  (truthy_name (instance_name w) = false →
   EasyTierDeviceClient.get_network_info w = (Return None, w))
  ∧ ∀ n status info l,
      instance_name w = Some n → n ≠ "" →
      cortex_get_web_client_network_info n (library w) = (status, info, l) →
      ∃ o, EasyTierDeviceClient.get_network_info w
           = (o, set_library l (log_call (Call_get_network_info n) w))
        ∧ (status ≠ 0%Z ∨ info = None → o = Return None)
        ∧ ∀ i, status = 0%Z → info = Some i →
            (fields_ok i = true →
             o = Return (Some (snapshot i)) ∧ dom (snapshot i) = info_keys)
            ∧ (fields_ok i = false → o = Raise UnicodeDecodeError).
Proof.
  split; [apply get_network_info_idle|].
  intros n status info l Hn Hne Hlib.
  rewrite (get_network_info_active w n status info l Hn Hne Hlib).
  eexists. split; [reflexivity|]. split.
  - intros [Hs | ->]; [|reflexivity].
    apply Z.eqb_neq in Hs. rewrite Hs. by destruct info.
  - intros i -> ->. simpl. split; intros ->; [|reflexivity].
    split; [reflexivity|].
    unfold snapshot, info_keys. rewrite !dom_insert_L, dom_empty_L. set_solver.
Qed.

End Wrapper.

Lemma stop_unknown_fails_without_effect_witness :
  ∃ w', EasyTierDeviceClient.stop (Examples.idle (Examples.agreeable None))
        = (Return false, w')
    ∧ calls w' = [] ∧ instance_name w' = None.
Proof.
  destruct (stop_unknown_fails_without_effect
              (Examples.idle (Examples.agreeable None)))
    as (w' & Hs & Hc & _ & Hn & _).
  - right. right. reflexivity.
  - exists w'. auto.
Defined.

Lemma network_info_snapshot_total_witness :
  ∃ d, (EasyTierDeviceClient.get_network_info
          (Examples.running (Examples.agreeable (Some Examples.partial_info)))).1
       = Return (Some d)
    ∧ d !! "virtual_ipv4" = Some "" ∧ d !! "network_name" = Some "alpha".
Proof.
  set (w := Examples.running (Examples.agreeable (Some Examples.partial_info))).
  destruct (network_info_snapshot_total w
              (snapshot Examples.partial_info)
              (EasyTierDeviceClient.get_network_info w).2)
    as (n & i & l & Hn & Hl & _ & _ & Hnet & Hip & _).
  - vm_compute. reflexivity.
  - exists (snapshot Examples.partial_info). split; [vm_compute; reflexivity|].
    vm_compute in Hl. simplify_eq. auto.
Defined.

Lemma start_records_path_and_calls_pass_it_witness :
  let w := Examples.idle (Examples.agreeable None) in
  let w1 := (EasyTierDeviceClient.start (H0 := lenient_runtime)
               "tcp://host:11020/org-123" (Some "m-1") w).2 in
  instance_name w1 = Some "org-123"
  ∧ calls (EasyTierDeviceClient.stop w1).2 = calls w1 ++ [Call_stop "org-123"]
  ∧ calls (EasyTierDeviceClient.get_network_info w1).2
    = calls w1 ++ [Call_get_network_info "org-123"].
Proof.
  intros w w1.
  destruct (start_records_path_and_calls_pass_it (H0 := lenient_runtime)
              "tcp://host:11020/org-123" (Some "m-1") w w1)
    as (parsed & Hparse & Hname & Hrun).
  - vm_compute. reflexivity.
  - rewrite urlparse_scenario in Hparse. injection Hparse as <-.
    split; [exact Hname|].
    destruct (Hrun [] [] w1 eq_refl (Forall_nil_2 _)) as (_ & Hlive).
    apply Hlive; [discriminate|constructor].
Defined.

Lemma stop_clears_instance_name_witness :
  let w := Examples.running (Examples.agreeable None) in
  let w1 := (EasyTierDeviceClient.stop w).2 in
  let later := run (H0 := lenient_runtime) [Op_get_network_info; Op_stop] w1 in
  instance_name w1 = None
  ∧ Forall idle_answer later.1
  ∧ later.1 = [R_get_network_info (Return None); R_stop (Return false)].
Proof.
  intros w w1 later.
  destruct (stop_clears_instance_name (H0 := lenient_runtime) w w1)
    as (Hnone & Hrun).
  - vm_compute. reflexivity.
  - split; [exact Hnone|].
    destruct (Hrun [Op_get_network_info; Op_stop] later.1 later.2)
      as (Hidle & _).
    + apply surjective_pairing.
    + repeat constructor; discriminate.
    + split; [exact Hidle|]. vm_compute. reflexivity.
Defined.

(** C2 as worded fails: an empty message is not null, and it is not
    printed. *)
Lemma start_as_worded_counterexample :
  let w := Examples.idle (Examples.refusing (Some "")) in
  let url := "tcp://host:11020/org-123" in
  (EasyTierDeviceClient.start (H0 := lenient_runtime) url (Some "m-1") w).1
  = Return false
  ∧ stdout
      (EasyTierDeviceClient.start (H0 := lenient_runtime) url (Some "m-1") w).2
    = []
  ∧ ¬ start_as_worded (H0 := lenient_runtime) url (Some "m-1") w.
Proof.
  intros w url. split; [reflexivity|]. split; [reflexivity|].
  intros [_ Hfail]. destruct Hfail as [_ Hmsg]; [discriminate|].
  specialize (Hmsg "" eq_refl). vm_compute in Hmsg. discriminate.
Qed.

Lemma start_status_decides_result_witness :
  let w := Examples.idle (Examples.refusing (Some "DuplicateInstanceError")) in
  (EasyTierDeviceClient.start (H0 := lenient_runtime)
     "tcp://host:11020/org-123" (Some "m-1") w).1 = Return false
  ∧ stdout (EasyTierDeviceClient.start (H0 := lenient_runtime)
              "tcp://host:11020/org-123" (Some "m-1") w).2
    = ["✗ Failed to start web client: DuplicateInstanceError"].
Proof.
  intros w.
  set (l := Examples.refusing (Some "DuplicateInstanceError")).
  assert (cortex_start_web_client
            (start_config "tcp://host:11020/org-123" (Some "m-1") w) (library w)
          = ((-1)%Z, l)) as Hlib by (vm_compute; reflexivity).
  assert (easytier_common_get_error_msg l
          = (Some "DuplicateInstanceError", l)) as Hmsg
    by (vm_compute; reflexivity).
  destruct (start_status_decides_result (H0 := lenient_runtime)
              _ _ _ _ _ _ _ Hlib Hmsg _ _ (surjective_pairing _))
    as (_ & _ & _ & Hfail).
  destruct Hfail as (Hfalse & _ & Hprint); [discriminate|reflexivity|].
  split; [exact Hfalse|].
  apply (Hprint "DuplicateInstanceError" eq_refl). discriminate.
Defined.

(** C4 as worded fails: the library answers with status 0 and a
    structure, yet the call raises and no dictionary is returned. *)
Lemma get_network_info_as_worded_counterexample :
  let w := Examples.running (Examples.agreeable (Some Examples.garbled_info)) in
  cortex_get_web_client_network_info "org-123" (library w)
  = (0%Z, Some Examples.garbled_info, library w)
  ∧ (EasyTierDeviceClient.get_network_info w).1 = Raise UnicodeDecodeError
  ∧ ¬ get_network_info_as_worded w.
Proof.
  intros w. split; [reflexivity|]. split; [reflexivity|].
  unfold get_network_info_as_worded.
  intros Hw. vm_compute in Hw. destruct Hw as (d & Hd & _). discriminate.
Qed.

Lemma get_network_info_cases_witness :
  let w := Examples.running (Examples.agreeable (Some Examples.partial_info)) in
  (EasyTierDeviceClient.get_network_info w).1
  = Return (Some (snapshot Examples.partial_info))
  ∧ (EasyTierDeviceClient.get_network_info
       (Examples.idle (Examples.agreeable (Some Examples.partial_info))))
    = (Return None, Examples.idle (Examples.agreeable (Some Examples.partial_info))).
Proof.
  intros w. split.
  - assert (cortex_get_web_client_network_info "org-123" (library w)
            = (0%Z, Some Examples.partial_info,
               Examples.agreeable (Some Examples.partial_info))) as Hlib
      by (vm_compute; reflexivity).
    destruct (proj2 (get_network_info_cases w) _ _ _ _
                eq_refl ltac:(discriminate) Hlib)
      as (o & Hrun & _ & Hdict).
    rewrite Hrun. simpl.
    apply (Hdict Examples.partial_info eq_refl eq_refl). reflexivity.
  - apply (proj1 (get_network_info_cases _)). reflexivity.
Defined.

(** ** The machine identity *)

Section WhitespaceFacts.

Lemma plain_not_two_first a b : plain a → Whitespace.two a b = false.
Proof.
  intros [Ha _]. unfold Whitespace.two, Str.isascii in *.
  apply N.ltb_lt in Ha.
  destruct (Str.code a =? 194)%N eqn:E; [|reflexivity].
  apply N.eqb_eq in E. lia.
Qed.

Lemma plain_not_three_first a b c : plain a → Whitespace.three a b c = false.
Proof.
  intros [Ha _]. unfold Whitespace.three, Str.isascii in *.
  apply N.ltb_lt in Ha. cbv zeta.
  destruct (Str.code a =? 225)%N eqn:E1; [apply N.eqb_eq in E1; lia|].
  destruct (Str.code a =? 226)%N eqn:E2; [apply N.eqb_eq in E2; lia|].
  destruct (Str.code a =? 227)%N eqn:E3; [apply N.eqb_eq in E3; lia|].
  reflexivity.
Qed.

Lemma plain_not_two_last a b : plain b → Whitespace.two a b = false.
Proof.
  intros [Hb _]. unfold Whitespace.two, Str.isascii in *.
  apply N.ltb_lt in Hb.
  destruct (Str.code b =? 133)%N eqn:E1; [apply N.eqb_eq in E1; lia|].
  destruct (Str.code b =? 160)%N eqn:E2; [apply N.eqb_eq in E2; lia|].
  apply andb_false_r.
Qed.

Lemma plain_not_three_last a b c : plain c → Whitespace.three a b c = false.
Proof.
  intros [Hc _]. unfold Whitespace.three, Str.isascii in *.
  apply N.ltb_lt in Hc. cbv zeta.
  assert ((Str.code c =? 128)%N = false) as -> by (apply N.eqb_neq; lia).
  assert ((128 <=? Str.code c)%N = false) as -> by (apply N.leb_gt; lia).
  assert ((Str.code c =? 168)%N = false) as -> by (apply N.eqb_neq; lia).
  assert ((Str.code c =? 169)%N = false) as -> by (apply N.eqb_neq; lia).
  assert ((Str.code c =? 175)%N = false) as -> by (apply N.eqb_neq; lia).
  assert ((Str.code c =? 159)%N = false) as -> by (apply N.eqb_neq; lia).
  rewrite !andb_false_r. reflexivity.
Qed.

(** Text that starts with a plain character has nothing to strip on the
    left. *)
Lemma lstrip_plain a r : plain a → Whitespace.lstrip (String a r) = String a r.
Proof.
  intros Ha. destruct Ha as [Hascii Hsp].
  assert (plain a) as Ha by (split; assumption).
  cbn [Whitespace.lstrip]. rewrite Hsp.
  destruct r as [|b [|c r]]; try reflexivity.
  - by rewrite plain_not_two_first.
  - by rewrite plain_not_two_first, plain_not_three_first.
Qed.

(** Seen from the right end, likewise. *)
Lemma lstrip_rev_plain a r :
  plain a → Whitespace.lstrip_rev (String a r) = String a r.
Proof.
  intros Ha. destruct Ha as [Hascii Hsp].
  assert (plain a) as Ha by (split; assumption).
  cbn [Whitespace.lstrip_rev]. rewrite Hsp.
  destruct r as [|b [|c r]]; try reflexivity.
  - by rewrite plain_not_two_last.
  - by rewrite plain_not_two_last, plain_not_three_last.
Qed.

Lemma hex_digit_plain n : plain (uuid.hex_digit n).
Proof.
  unfold uuid.hex_digit. generalize (N.to_nat n) as k. intros k.
  do 15 (destruct k as [|k]; [split; reflexivity|]).
  split; reflexivity.
Qed.

(** A UUID in text has no white space at its ends. *)
Lemma strip_uuid u : Whitespace.strip (uuid.str u) = uuid.str u.
Proof.
  unfold Whitespace.strip, Whitespace.rstrip.
  cbv beta iota zeta delta [uuid.str uuid.hex_run append].
  rewrite lstrip_plain by apply hex_digit_plain.
  cbv beta iota zeta delta [String.rev String.rev_app].
  rewrite lstrip_rev_plain by apply hex_digit_plain.
  reflexivity.
Qed.

End WhitespaceFacts.

Section FileFacts.

Lemma chain_machine_id :
  os.chain (os.dirname MACHINE_ID_FILE)
  = ["/var"; "/var/lib"; "/var/lib/cortex_agent"].
Proof. reflexivity. Qed.

Lemma dirname_machine_id : os.dirname MACHINE_ID_FILE = "/var/lib/cortex_agent".
Proof. reflexivity. Qed.

(** [os.makedirs] succeeds when no directory on the way is taken by a
    file: the directories exist afterwards and nothing else has changed. *)
Lemma mkdirs_creates ds : ∀ f : gmap string Node,
  (∀ d c, d ∈ ds → f !! d ≠ Some (File c)) →
  ∃ f', os.mkdirs f ds = Return f'
    ∧ (∀ d, d ∈ ds → f' !! d = Some Dir)
    ∧ (∀ p, p ∉ ds → f' !! p = f !! p).
Proof.
  induction ds as [|d ds IH]; intros f Hfree.
  - exists f. split; [reflexivity|]. split; [intros d Hd; inversion Hd|done].
  - cbn [os.mkdirs]. unfold os.mkdir_step.
    assert (∃ f1, match f !! d with
                  | Some Dir => Return f
                  | Some (File _) =>
                      Raise (if bool_decide (ds = []) then FileExistsError
                             else NotADirectoryError)
                  | None => Return (<[d:=Dir]> f)
                  end = Return f1
            ∧ f1 !! d = Some Dir
            ∧ (∀ p, p ≠ d → f1 !! p = f !! p)) as (f1 & -> & Hd & Hother).
    { destruct (f !! d) as [[c|]|] eqn:Hfd.
      - exfalso. apply (Hfree d c); [left|done].
      - exists f. auto.
      - exists (<[d:=Dir]> f). split; [done|].
        split; [apply lookup_insert_eq|].
        intros p Hp. by apply lookup_insert_ne. }
    destruct (IH f1) as (f' & Hrun & Hdirs & Hframe).
    { intros d' c Hd'. destruct (decide (d' = d)) as [->|Hne].
      - rewrite Hd. discriminate.
      - rewrite Hother by done. apply Hfree. by right. }
    exists f'. split; [exact Hrun|]. split.
    + intros d' Hd'. apply elem_of_cons in Hd' as [->|Hin]; [|by apply Hdirs].
      destruct (decide (d ∈ ds)) as [Hin|Hout]; [by apply Hdirs|].
      by rewrite Hframe.
    + intros p Hp. apply not_elem_of_cons in Hp as [Hne Hout].
      rewrite Hframe by done. by apply Hother.
Qed.

End FileFacts.

(** *** Reading a file as text *)

Section TextFacts.

(** ASCII text is well-formed UTF-8. *)
Lemma valid_ascii s : Str.forallb Str.isascii s = true → Utf8.valid s = true.
Proof.
  induction s as [|c s IH]; [done|]. cbn [Str.forallb Utf8.valid].
  intros [Hc Hs]%andb_true_iff. rewrite Hc. auto.
Qed.

Lemma space_is_ascii c :
  Whitespace.ascii_space c = true → Str.isascii c = true.
Proof.
  unfold Whitespace.ascii_space, Str.in_range, Str.isascii. intros Hc.
  apply N.ltb_lt.
  apply orb_true_iff in Hc as [Hc|Hc];
    apply andb_true_iff in Hc as [_ Hc]; apply N.leb_le in Hc; lia.
Qed.

Lemma newlines_one c :
  os.universal_newlines (String c "")
  = if Ascii.eqb c "013" then String "010" "" else String c "".
Proof. reflexivity. Qed.

Lemma newlines_two c a s :
  os.universal_newlines (String c (String a s))
  = if Ascii.eqb c "013"
    then if Ascii.eqb a "010"
         then String "010" (os.universal_newlines s)
         else String "010" (os.universal_newlines (String a s))
    else String c (os.universal_newlines (String a s)).
Proof. reflexivity. Qed.

(** Text without a carriage return is read as it is, whatever follows
    it. *)
Lemma newlines_no_cr s :
  Str.contains "013" s = false →
  ∀ t, os.universal_newlines (s +:+ t) = s +:+ os.universal_newlines t.
Proof.
  induction s as [|c s IH]; intros Hc t; [reflexivity|].
  cbn [Str.contains] in Hc. apply orb_false_iff in Hc as [Hc Hs].
  rewrite !append_cons. rewrite Ascii.eqb_sym in Hc.
  rewrite <- (IH Hs t).
  destruct (s +:+ t) as [|a r].
  - by rewrite newlines_one, Hc.
  - by rewrite newlines_two, Hc.
Qed.

Lemma newlines_plain_text s :
  Str.forallb is_plain s = true →
  Utf8.valid s = true ∧ os.universal_newlines s = s.
Proof.
  intros Hs. split.
  - apply valid_ascii. revert Hs. apply forallb_impl.
    unfold is_plain. by intros c [? _]%andb_true_iff.
  - assert (Str.contains "013" s = false) as Hcr
      by (by apply (forallb_not_contains is_plain)).
    clear Hs. induction s as [|c s IH]; [done|].
    cbn [Str.contains] in Hcr. apply orb_false_iff in Hcr as [Hc Hcr].
    rewrite Ascii.eqb_sym in Hc.
    destruct s as [|a r]; [by rewrite newlines_one, Hc|].
    by rewrite newlines_two, Hc, IH.
Qed.

(** White space is read as white space. *)
Lemma newlines_blank s :
  Str.forallb Whitespace.ascii_space s = true →
  Str.forallb Whitespace.ascii_space (os.universal_newlines s) = true.
Proof.
  enough ((Str.forallb Whitespace.ascii_space s = true →
           Str.forallb Whitespace.ascii_space (os.universal_newlines s) = true)
          ∧ ∀ c, Str.forallb Whitespace.ascii_space (String c s) = true →
                 Str.forallb Whitespace.ascii_space
                   (os.universal_newlines (String c s)) = true) by tauto.
  induction s as [|a s [IH1 IH2]].
  - split; [done|]. intros c Hc. rewrite newlines_one.
    by destruct (Ascii.eqb c "013").
  - split; [apply IH2|]. intros c Hc.
    cbn [Str.forallb] in Hc. apply andb_true_iff in Hc as [Hc Has].
    rewrite newlines_two.
    destruct (Ascii.eqb c "013"); [destruct (Ascii.eqb a "010")|];
      cbn [Str.forallb]; apply andb_true_iff; (split; [done|]).
    + apply IH1. cbn [Str.forallb] in Has.
      by apply andb_true_iff in Has as [_ ?].
    + by apply IH2.
    + by apply IH2.
Qed.

(** Reading splits a text where no line end is cut in two. *)
Lemma newlines_append a : ∀ b,
  first_char b ≠ Some "010"%char →
  os.universal_newlines (a +:+ b)
  = os.universal_newlines a +:+ os.universal_newlines b.
Proof.
  enough ((∀ b, first_char b ≠ Some "010"%char →
             os.universal_newlines (a +:+ b)
             = os.universal_newlines a +:+ os.universal_newlines b)
          ∧ ∀ c b, first_char b ≠ Some "010"%char →
              os.universal_newlines (String c a +:+ b)
              = os.universal_newlines (String c a) +:+ os.universal_newlines b)
    by tauto.
  induction a as [|x a [IH1 IH2]].
  - split; [done|]. intros c b Hb. rewrite append_cons, append_nil_l.
    rewrite newlines_one. destruct b as [|d r].
    + rewrite newlines_one. by destruct (Ascii.eqb c "013").
    + rewrite newlines_two.
      destruct (Ascii.eqb_spec d "010") as [->|_]; [done|].
      by destruct (Ascii.eqb c "013").
  - split; [apply IH2|]. intros c b Hb.
    rewrite !append_cons, !newlines_two.
    rewrite <- append_cons, (IH1 b Hb), (IH2 x b Hb).
    destruct (Ascii.eqb c "013"); [destruct (Ascii.eqb x "010")|];
      by rewrite ?append_cons.
Qed.

(** A UUID in text is read back as it was written. *)
Lemma forallb_hex_run p u :
  (∀ n, p (uuid.hex_digit n) = true) →
  ∀ count hi, Str.forallb p (uuid.hex_run u hi count) = true.
Proof.
  intros Hp. induction count as [|c IH]; intros hi; [done|].
  cbn [uuid.hex_run Str.forallb]. by rewrite Hp, IH.
Qed.

Lemma uuid_is_plain u : Str.forallb is_plain (uuid.str u) = true.
Proof.
  assert (∀ n, is_plain (uuid.hex_digit n) = true) as Hp.
  { intros n. destruct (hex_digit_plain n) as [Ha Hs].
    unfold is_plain. by rewrite Ha, Hs. }
  unfold uuid.str. by rewrite !forallb_append, !forallb_hex_run.
Qed.

Lemma read_uuid u :
  Utf8.valid (uuid.str u) = true
  ∧ os.universal_newlines (uuid.str u) = uuid.str u.
Proof. apply newlines_plain_text, uuid_is_plain. Qed.

End TextFacts.

Section IdentityFacts.
Context {L : Type} `{DeviceLibrary L} `{PyRuntime}.

Implicit Types w : World L.

(** The identity file is there: it is read as text, and nothing changes. *)
Lemma machine_id_read w content :
  fs w !! MACHINE_ID_FILE = Some (File content) →
  main_machine_id w
  = (if Utf8.valid content
     then Return (Whitespace.strip (os.universal_newlines content))
     else Raise UnicodeDecodeError, w).
Proof.
  intros Hf. unfold main_machine_id, os.path_exists, os.read_text, bind, ret.
  rewrite Hf. rewrite bool_decide_eq_true_2 by eauto.
  cbv beta iota zeta. rewrite Hf. unfold Utf8.decode.
  by destruct (Utf8.valid content).
Qed.

(** The identity file holds a UUID: that UUID is the machine id. *)
Lemma machine_id_read_uuid w u :
  fs w !! MACHINE_ID_FILE = Some (File (uuid.str u)) →
  main_machine_id w = (Return (uuid.str u), w).
Proof.
  intros Hf. rewrite (machine_id_read w _ Hf).
  destruct (read_uuid u) as [-> ->]. by rewrite strip_uuid.
Qed.

(** The identity file is not there: the steps of its creation. *)
Lemma machine_id_created w :
  fs w !! MACHINE_ID_FILE = None →
  parents_creatable (fs w) →
  ∃ f1,
    os.mkdirs (fs w) (os.chain (os.dirname MACHINE_ID_FILE)) = Return f1
    ∧ f1 !! MACHINE_ID_FILE = None
    ∧ main_machine_id w
      = (Return (next_uuid w),
         set_fs (<[MACHINE_ID_FILE := File (next_uuid w)]>
                   (<[MACHINE_ID_FILE := File ""]> f1))
           (set_fs (<[MACHINE_ID_FILE := File ""]> f1)
              (set_fs f1 (set_drawn (S (drawn w)) w)))).
Proof.
  intros Hf Hfree.
  destruct (mkdirs_creates _ (fs w) Hfree) as (f1 & Hmk & Hdirs & Hframe).
  exists f1. split; [exact Hmk|].
  assert (f1 !! MACHINE_ID_FILE = None) as Hf1.
  { rewrite Hframe; [exact Hf|]. rewrite chain_machine_id.
    intros Hin. repeat (apply elem_of_cons in Hin as [Hin|Hin]; [discriminate|]).
    inversion Hin. }
  split; [exact Hf1|].
  assert (f1 !! "/var/lib/cortex_agent" = Some Dir) as Hparent.
  { apply Hdirs. rewrite chain_machine_id.
    apply list_elem_of_further, list_elem_of_further, list_elem_of_here. }
  unfold main_machine_id, os.path_exists, os.makedirs, os.open_w,
    os.write_close, uuid4_str, bind, ret.
  rewrite Hf. rewrite bool_decide_eq_false_2 by (intros [? ?]; discriminate).
  rewrite dirname_machine_id in *.
  cbn [Str.is_empty fs set_drawn set_fs]. rewrite Hmk.
  cbn [fs set_fs]. rewrite Hf1. unfold os.is_dir. rewrite Hparent.
  rewrite orb_true_r. reflexivity.
Qed.

(** [main] hands the machine id of the identity block to [start], in a
    structure whose URL ends in the organization id. *)
Lemma main_passes_machine_id w id w1 :
  main_machine_id w = (Return id, w1) →
  ∃ rest,
    calls (main w).2
    = calls w1
      ++ Call_start
           {| CortexWebClient.config_server_url :=
                Some "tcp://192.168.1.100:11020/550e8400-e29b-41d4-a716-446655440000";
              CortexWebClient.organization_id := None;
              CortexWebClient.machine_id := Some id |}
      :: rest.
Proof.
  intros Hid. unfold main. unfold bind at 1. rewrite Hid.
  unfold bind at 1. unfold EasyTierDeviceClient.init, assign_instance_name.
  set (w2 := set_instance_name None w1).
  destruct (start_calls (CONFIG_SERVER_URL +:+ "/" +:+ ORGANIZATION_ID)
              (Some id) w2) as (rest & Hcalls & _).
  unfold bind at 1.
  destruct (EasyTierDeviceClient.start _ (Some id) w2) as [o w3].
  cbn [snd] in Hcalls. change (calls w2) with (calls w1) in Hcalls.
  change (start_config _ (Some id) w2) with
    {| CortexWebClient.config_server_url :=
         Some "tcp://192.168.1.100:11020/550e8400-e29b-41d4-a716-446655440000";
       CortexWebClient.organization_id := None;
       CortexWebClient.machine_id := Some id |} in Hcalls.
  destruct o as [[|]|e]; [| |by exists rest].
  - unfold print, bind, ret. cbn [fst snd].
    match goal with
    | |- context [EasyTierDeviceClient.get_network_info ?w4] =>
        destruct (EasyTierDeviceClient.get_network_info w4) as [o w5] eqn:Hg;
        assert (∃ more, calls w5 = calls w3 ++ more) as [more Hmore]
    end.
    { destruct (get_network_info_effect _ _ _ Hg)
        as [(_ & _ & ->)|(n & _ & _ & Hc & _)].
      - exists []. by rewrite app_nil_r.
      - exists [Call_get_network_info n]. exact Hc. }
    exists (rest ++ more).
    destruct o as [[d|]|e]; try destruct (bool_decide (d = ∅));
      cbn [snd calls put_line]; rewrite Hmore, Hcalls, <- app_assoc; reflexivity.
  - unfold print, bind, ret. cbn [snd calls put_line]. by exists rest.
Qed.

(** C7, as the code has it. An identity file that exists is read as
    text: if its bytes are well-formed UTF-8, the text (with "\r\n" and
    "\r" read as "\n") without the white space around it is the machine
    id, and otherwise the read raises [UnicodeDecodeError]; nothing
    changes. When nothing exists at its path and no directory above it is
    taken by a regular file, the machine id is a fresh UUID in text, the
    directories above the file exist afterwards, the file holds the UUID,
    and no other path has changed. From then on, whatever else the process
    state is, the block reads that same identity and changes nothing. *)
Theorem machine_id_read_or_created w :
  (∀ content,
     fs w !! MACHINE_ID_FILE = Some (File content) →
     (Utf8.valid content = true →
      main_machine_id w
      = (Return (Whitespace.strip (os.universal_newlines content)), w))
     ∧ (Utf8.valid content = false →
        main_machine_id w = (Raise UnicodeDecodeError, w)))
  ∧ (fs w !! MACHINE_ID_FILE = None →
     parents_creatable (fs w) →
     ∃ w',
       main_machine_id w = (Return (next_uuid w), w')
       ∧ fs w' !! MACHINE_ID_FILE = Some (File (next_uuid w))
       ∧ (∀ d, d ∈ os.chain (os.dirname MACHINE_ID_FILE) →
            fs w' !! d = Some Dir)
       ∧ (∀ p, p ≠ MACHINE_ID_FILE →
            p ∉ os.chain (os.dirname MACHINE_ID_FILE) →
            fs w' !! p = fs w !! p)
       ∧ drawn w' = S (drawn w)
       ∧ ∀ w2 : World L,
           fs w2 = fs w' →
           main_machine_id w2 = (Return (next_uuid w), w2)).
Proof.
  split.
  { intros content Hf. rewrite (machine_id_read w content Hf).
    split; by intros ->. }
  intros Hf Hfree.
  destruct (machine_id_created w Hf Hfree) as (f1 & Hmk & Hf1 & Hrun).
  destruct (mkdirs_creates _ (fs w) Hfree) as (f1' & Hmk' & Hdirs & Hframe).
  rewrite Hmk in Hmk'. injection Hmk' as <-.
  eexists. split; [exact Hrun|]. cbn [fs set_fs drawn set_drawn].
  assert (∀ d, d ∈ os.chain (os.dirname MACHINE_ID_FILE) →
               d ≠ MACHINE_ID_FILE) as Hne.
  { intros d Hd ->. rewrite (Hdirs _ Hd) in Hf1. discriminate. }
  split; [apply lookup_insert_eq|]. split; [|split; [|split; [reflexivity|]]].
  - intros d Hd. rewrite !lookup_insert_ne by (apply not_eq_sym, Hne, Hd).
    by apply Hdirs.
  - intros p Hp Hout. rewrite !lookup_insert_ne by done. by apply Hframe.
  - intros w2 Hfs. apply machine_id_read_uuid.
    rewrite Hfs. apply lookup_insert_eq.
Qed.


End IdentityFacts.

Lemma machine_id_read_or_created_witness :
  main_machine_id (new_world (Examples.agreeable None) Examples.provisioned)
  = (Return "m-1", new_world (Examples.agreeable None) Examples.provisioned)
  ∧ ∃ w', main_machine_id (Examples.idle (Examples.agreeable None))
          = (Return "00000000-0000-4000-8000-000000000000", w')
    ∧ fs w' !! MACHINE_ID_FILE
      = Some (File "00000000-0000-4000-8000-000000000000")
    ∧ main_machine_id w'
      = (Return "00000000-0000-4000-8000-000000000000", w').
Proof.
  split.
  - apply (proj1 (machine_id_read_or_created
                    (new_world (Examples.agreeable None) Examples.provisioned))
             "m-1
"); reflexivity.
  - destruct (proj2 (machine_id_read_or_created
                       (Examples.idle (Examples.agreeable None))))
      as (w' & Hrun & Hfile & _ & _ & _ & Hlater).
    + reflexivity.
    + intros d c Hd. vm_compute. discriminate.
    + exists w'. split; [exact Hrun|]. split; [exact Hfile|].
      apply Hlater. reflexivity.
Defined.

(** C7 as worded fails. An identity file whose bytes are not UTF-8 is not
    read: the read raises. An identity file with a carriage return inside
    is not taken as it is: the carriage return is read as a line feed.
    And when a directory above the identity file is taken by a regular
    file, no UUID is stored: [os.makedirs] raises and the file system
    stays as it was. *)
Lemma machine_id_as_worded_counterexample :
  let garbled :=
    new_world (Examples.agreeable None) Examples.garbled_identity in
  let carriage :=
    new_world (Examples.agreeable None) Examples.carriage_identity in
  let blocked := new_world (Examples.agreeable None) Examples.blocked in
  ((main_machine_id garbled).1 = Raise UnicodeDecodeError
   ∧ ¬ machine_id_as_worded garbled)
  ∧ ((main_machine_id carriage).1
       = Return (String "a" (String "010" (String "b" "")))
     ∧ ¬ machine_id_as_worded carriage)
  ∧ ((main_machine_id blocked).1 = Raise NotADirectoryError
     ∧ fs (main_machine_id blocked).2 = Examples.blocked
     ∧ ¬ machine_id_as_worded blocked).
Proof.
  intros garbled carriage blocked. split; [|split].
  - split; [reflexivity|]. unfold machine_id_as_worded.
    destruct (main_machine_id garbled) as [o w'] eqn:Hrun.
    assert (o = Raise UnicodeDecodeError) as ->
      by (apply (f_equal fst) in Hrun; vm_compute in Hrun; congruence).
    assert (fs garbled !! MACHINE_ID_FILE = Some (File (String "255" "")))
      as -> by (vm_compute; reflexivity).
    discriminate.
  - split; [reflexivity|]. unfold machine_id_as_worded.
    destruct (main_machine_id carriage) as [o w'] eqn:Hrun.
    assert (o = Return (String "a" (String "010" (String "b" "")))) as ->
      by (apply (f_equal fst) in Hrun; vm_compute in Hrun; congruence).
    assert (fs carriage !! MACHINE_ID_FILE
            = Some (File (String "a" (String "013"
                            (String "b" (String "010" ""))))))
      as -> by (vm_compute; reflexivity).
    intros Heq. vm_compute in Heq. discriminate.
  - split; [reflexivity|]. split; [vm_compute; reflexivity|].
    unfold machine_id_as_worded.
    destruct (main_machine_id blocked) as [o w'] eqn:Hrun.
    assert (o = Raise NotADirectoryError) as ->
      by (apply (f_equal fst) in Hrun; vm_compute in Hrun; congruence).
    assert (fs blocked !! MACHINE_ID_FILE = None) as ->
      by (vm_compute; reflexivity).
    intros [Ho _]. discriminate.
Qed.



(** ** The Instance Registry *)

Section RegistryFacts.

Implicit Types r : gmap string Registry.Instance.

Lemma registry_start_active name c r :
  is_Some (r !! name) →
  Registry.start name c r = Registry.Err Registry.DuplicateInstanceError.
Proof. intros [i Hi]. unfold Registry.start. by rewrite Hi. Qed.

Lemma registry_start_absent name c r :
  r !! name = None →
  ∃ r', Registry.start name c r = Registry.Ok r' ∧ is_Some (r' !! name).
Proof.
  intros Hn. unfold Registry.start. rewrite Hn. eexists. split; [done|].
  rewrite lookup_insert_eq. eauto.
Qed.

(** No request but a [stop] of the instance takes it out of the registry. *)
Lemma registry_apply_keeps name q r :
  q ≠ Registry.Stop name →
  is_Some (r !! name) →
  is_Some (Registry.apply r q !! name).
Proof.
  intros Hq Hin. destruct q as [n c|n|n|n s|n net]; simpl.
  - unfold Registry.start. destruct (r !! n) eqn:Hn; [done|].
    destruct (decide (n = name)) as [->|Hne].
    + rewrite lookup_insert_eq. eauto.
    + by rewrite lookup_insert_ne.
  - unfold Registry.stop. destruct (r !! n) eqn:Hn; [|done].
    assert (n ≠ name) by congruence. by rewrite lookup_delete_ne.
  - done.
  - unfold Registry.activate. destruct Hin as [i Hi].
    destruct (decide (n = name)) as [->|Hne].
    + rewrite lookup_alter_eq, Hi. simpl. eauto.
    + rewrite lookup_alter_ne by done. eauto.
  - unfold Registry.revoke. destruct Hin as [i Hi].
    destruct (decide (n = name)) as [->|Hne].
    + rewrite lookup_alter_eq, Hi. simpl. eauto.
    + rewrite lookup_alter_ne by done. eauto.
Qed.

Lemma registry_apply_all_keeps name qs : ∀ r,
  Forall (λ q, q ≠ Registry.Stop name) qs →
  is_Some (r !! name) →
  is_Some (Registry.apply_all r qs !! name).
Proof.
  induction qs as [|q qs IH]; intros r Hqs Hin; [done|].
  apply Forall_cons in Hqs as [Hq Hqs]. simpl.
  apply IH; [done|]. by apply registry_apply_keeps.
Qed.

(** C3. Once [start] has succeeded for an instance name, and whatever
    requests follow as long as none is a [stop] of that name, a [start]
    with the same name fails with [DuplicateInstanceError]; a [stop] of the
    name then succeeds, and after it [start] succeeds again. *)
Theorem duplicate_start_fails_until_stop name c r r' qs :
  Registry.start name c r = Registry.Ok r' →
  Forall (λ q, q ≠ Registry.Stop name) qs →
  (∀ c', Registry.start name c' (Registry.apply_all r' qs)
         = Registry.Err Registry.DuplicateInstanceError)
  ∧ ∃ r'', Registry.stop name (Registry.apply_all r' qs) = Registry.Ok r''
      ∧ ∀ c', ∃ r3, Registry.start name c' r'' = Registry.Ok r3.
Proof.
  intros Hstart Hqs.
  assert (is_Some (r' !! name)) as Hin.
  { unfold Registry.start in Hstart. destruct (r !! name); [discriminate|].
    injection Hstart as <-. rewrite lookup_insert_eq. eauto. }
  pose proof (registry_apply_all_keeps name qs r' Hqs Hin) as Hlater.
  split.
  - intros c'. by apply registry_start_active.
  - unfold Registry.stop. destruct Hlater as [i ->].
    eexists. split; [reflexivity|].
    intros c'. destruct (registry_start_absent name c' (delete name (Registry.apply_all r' qs)))
      as (r3 & Hr3 & _); [apply lookup_delete_eq|]. eauto.
Qed.

End RegistryFacts.

Lemma duplicate_start_fails_until_stop_witness :
  let c := {| Registry.organization_id := "org-123";
              Registry.machine_id := "m-1";
              Registry.control_endpoint := "tcp://host:11020/org-123" |} in
  let s := {| Registry.network_name := "alpha";
              Registry.virtual_ipv4 := "10.144.0.2";
              Registry.hostname := "device";
              Registry.agent_version := "2.4.0" |} in
  let later :=
    Registry.apply_all
      (<["org-123" := {| Registry.config := c;
                         Registry.status := Registry.Starting;
                         Registry.sessions := [] |}]> ∅)
      [Registry.Activate "org-123" s; Registry.Query "org-123";
       Registry.Start "org-456" c; Registry.Stop "org-456"] in
  Registry.start "org-123" c later
  = Registry.Err Registry.DuplicateInstanceError
  ∧ ∃ r'', Registry.stop "org-123" later = Registry.Ok r''
      ∧ ∃ r3, Registry.start "org-123" c r'' = Registry.Ok r3.
Proof.
  intros c s later.
  assert (Registry.start "org-123" c ∅
          = Registry.Ok (<["org-123" := {| Registry.config := c;
                                           Registry.status := Registry.Starting;
                                           Registry.sessions := [] |}]> ∅))
    as Hstart by reflexivity.
  destruct (duplicate_start_fails_until_stop "org-123" c ∅ _
              [Registry.Activate "org-123" s; Registry.Query "org-123";
               Registry.Start "org-456" c; Registry.Stop "org-456"] Hstart)
    as (Hdup & r'' & Hstop & Hagain).
  - repeat constructor; discriminate.
  - split; [apply Hdup|]. exists r''. split; [exact Hstop|apply Hagain].
Defined.

(** Through the wrapper, with the registry for library: the second [start]
    reaches the library, which refuses it; the wrapper prints the message
    and returns [False]. After [stop] the same [start] succeeds. *)
Example duplicate_start_through_wrapper :
  let '(rs, w) :=
    run (H0 := lenient_runtime)
      [Op_start "tcp://host:11020/org-123" (Some "m-1");
       Op_start "tcp://host:11020/org-123" (Some "m-1");
       Op_stop;
       Op_start "tcp://host:11020/org-123" (Some "m-1")]
      (Examples.idle Registry.empty) in
  rs = [R_start (Return true); R_start (Return false); R_stop (Return true);
        R_start (Return true)]
  ∧ stdout w !! 4 = Some "✗ Failed to start web client: DuplicateInstanceError".
Proof. vm_compute. split; reflexivity. Qed.

(** * Further properties of the wrapper *)

Section WrapperFrame.
Context {L : Type} `{DeviceLibrary L} `{PyRuntime}.

Implicit Types w : World L.

(** What [start] leaves alone. *)
Lemma start_frame url mid w :
  fs (EasyTierDeviceClient.start url mid w).2 = fs w
  ∧ fs_seen (EasyTierDeviceClient.start url mid w).2 = fs_seen w
  ∧ urandom (EasyTierDeviceClient.start url mid w).2 = urandom w
  ∧ drawn (EasyTierDeviceClient.start url mid w).2
    = match mid with Some _ => drawn w | None => S (drawn w) end.
Proof.
  rewrite start_eq.
  destruct (cortex_start_web_client _ (library w)) as [r l].
  destruct (r =? 0)%Z.
  - destruct (Url.urlparse url); destruct mid; simpl; auto.
  - destruct (easytier_common_get_error_msg l) as [m l'].
    destruct (truthy_bytes m); [destruct (Utf8.valid _)|];
      destruct mid; simpl; auto.
Qed.

Lemma stop_frame w :
  fs (EasyTierDeviceClient.stop w).2 = fs w
  ∧ fs_seen (EasyTierDeviceClient.stop w).2 = fs_seen w
  ∧ urandom (EasyTierDeviceClient.stop w).2 = urandom w
  ∧ drawn (EasyTierDeviceClient.stop w).2 = drawn w.
Proof.
  destruct (truthy_name (instance_name w)) eqn:Ht.
  - destruct (instance_name w) as [n|] eqn:Hn; [|discriminate].
    apply truthy_name_Some in Ht. rewrite (stop_active w n Hn Ht). cbv zeta.
    destruct (cortex_stop_web_client n (library w)) as [r l].
    destruct (r =? 0)%Z; simpl; auto.
  - rewrite (stop_idle w Ht). simpl. auto.
Qed.

Lemma get_network_info_frame w :
  fs (EasyTierDeviceClient.get_network_info w).2 = fs w
  ∧ fs_seen (EasyTierDeviceClient.get_network_info w).2 = fs_seen w
  ∧ urandom (EasyTierDeviceClient.get_network_info w).2 = urandom w
  ∧ drawn (EasyTierDeviceClient.get_network_info w).2 = drawn w
  ∧ stdout (EasyTierDeviceClient.get_network_info w).2 = stdout w
  ∧ instance_name (EasyTierDeviceClient.get_network_info w).2
    = instance_name w.
Proof.
  destruct (truthy_name (instance_name w)) eqn:Ht.
  - destruct (instance_name w) as [n|] eqn:Hn; [|discriminate].
    apply truthy_name_Some in Ht.
    destruct (cortex_get_web_client_network_info n (library w))
      as [[r info] l] eqn:Hl.
    rewrite (get_network_info_active w n r info l Hn Ht Hl). simpl. auto 10.
  - rewrite (get_network_info_idle w Ht). simpl. auto 10.
Qed.

(** X2. [stop] returns [True] exactly when an instance name that is not
    empty is on record and [cortex_stop_web_client], called with that
    name, returns 0. *)
Theorem stop_true_iff_library_agrees w :
  (EasyTierDeviceClient.stop w).1 = Return true
  ↔ ∃ n, instance_name w = Some n ∧ n ≠ ""
         ∧ (cortex_stop_web_client n (library w)).1 = 0%Z.
Proof.
  destruct (truthy_name (instance_name w)) eqn:Ht.
  - destruct (instance_name w) as [n|] eqn:Hn; [|discriminate].
    apply truthy_name_Some in Ht. rewrite (stop_active w n Hn Ht). cbv zeta.
    destruct (cortex_stop_web_client n (library w)) as [r l] eqn:Hl.
    destruct (r =? 0)%Z eqn:Hr; cbn [fst].
    + apply Z.eqb_eq in Hr. split; [|done]. intros _. exists n.
      rewrite Hl. auto.
    + apply Z.eqb_neq in Hr. split; [discriminate|].
      intros (n' & [= <-] & _ & Hz). rewrite Hl in Hz. done.
  - rewrite (stop_idle w Ht). cbn [fst]. split; [discriminate|].
    intros (n & Hn & Hne & _).
    rewrite Hn in Ht. apply truthy_name_false in Ht as [?|?]; congruence.
Qed.

(** X3. When the library refuses to stop the instance (a status other
    than 0), [stop] returns [False] and keeps the name on record, so that
    the next [stop] asks the library again, with the same name. *)
Theorem failed_stop_keeps_instance w n status l :
  instance_name w = Some n → n ≠ "" →
  cortex_stop_web_client n (library w) = (status, l) →
  status ≠ 0%Z →
  ∃ w', EasyTierDeviceClient.stop w = (Return false, w')
    ∧ instance_name w' = Some n
    ∧ library w' = l
    ∧ calls w' = calls w ++ [Call_stop n]
    ∧ calls (EasyTierDeviceClient.stop w').2
      = calls w ++ [Call_stop n; Call_stop n].
Proof.
  intros Hn Hne Hl Hs. rewrite (stop_active w n Hn Hne), Hl. cbv zeta.
  apply Z.eqb_neq in Hs. rewrite Hs. eexists. split; [reflexivity|].
  cbn [instance_name library calls put_line set_library log_call].
  repeat split; try done.
  match goal with |- context [EasyTierDeviceClient.stop ?w1] =>
    destruct (EasyTierDeviceClient.stop w1) as [o w2] eqn:Hs2;
    destruct (stop_effect _ _ _ Hs2) as [(Ht & _)|(m & Hm & _ & Hc & _)]
  end.
  - cbn [instance_name put_line set_library log_call] in Ht.
    rewrite Hn in Ht. apply truthy_name_false in Ht as [?|?]; congruence.
  - cbn [instance_name calls put_line set_library log_call snd] in *.
    rewrite Hn in Hm. injection Hm as <-.
    rewrite Hc, <- app_assoc. reflexivity.
Qed.

(** X4. [get_network_info] only asks: it prints nothing, keeps the name on
    record, draws no randomness, and makes at most one library call, the
    query for the recorded name. *)
Theorem get_network_info_only_asks w :
  stdout (EasyTierDeviceClient.get_network_info w).2 = stdout w
  ∧ instance_name (EasyTierDeviceClient.get_network_info w).2
    = instance_name w
  ∧ drawn (EasyTierDeviceClient.get_network_info w).2 = drawn w
  ∧ (calls (EasyTierDeviceClient.get_network_info w).2 = calls w
     ∨ ∃ n, instance_name w = Some n
         ∧ calls (EasyTierDeviceClient.get_network_info w).2
           = calls w ++ [Call_get_network_info n]).
Proof.
  pose proof (get_network_info_frame w) as (_ & _ & _ & Hd & Ho & Hi).
  split; [exact Ho|]. split; [exact Hi|]. split; [exact Hd|].
  destruct (EasyTierDeviceClient.get_network_info w) as [o w'] eqn:Hg.
  destruct (get_network_info_effect _ _ _ Hg)
    as [(_ & _ & ->)|(n & Hn & _ & Hc & _)]; [by left|].
  right. exists n. auto.
Qed.

End WrapperFrame.

Lemma failed_stop_keeps_instance_witness :
  let w := Examples.running (Examples.refusing None) in
  ∃ w', EasyTierDeviceClient.stop w = (Return false, w')
    ∧ instance_name w' = Some "org-123"
    ∧ calls (EasyTierDeviceClient.stop w').2
      = [Call_stop "org-123"; Call_stop "org-123"].
Proof.
  intros w.
  assert (cortex_stop_web_client "org-123" (library w)
          = ((-1)%Z, Examples.refusing None)) as Hl by reflexivity.
  destruct (failed_stop_keeps_instance w "org-123" _ _ eq_refl
              ltac:(discriminate) Hl ltac:(discriminate))
    as (w' & Hs & Hn & _ & _ & Hc).
  exists w'. auto.
Defined.

Section StripFacts.

Lemma lstrip_all p s :
  Str.forallb p s = true → Str.lstrip p s = "".
Proof.
  induction s as [|c s IH]; [done|].
  cbn [Str.forallb Str.lstrip]. intros [-> Hs]%andb_true_iff. auto.
Qed.

Lemma lstrip_first p s c :
  first_char (Str.lstrip p s) = Some c → p c = false.
Proof.
  induction s as [|d s IH]; [done|].
  cbn [Str.lstrip]. destruct (p d) eqn:Hd; [exact IH|].
  cbn [first_char]. by intros [= <-].
Qed.

Lemma rstrip_first p s c :
  first_char (Str.rstrip p s) = Some c → first_char s = Some c.
Proof.
  destruct s as [|d s]; [done|]. cbn [Str.rstrip].
  destruct (Str.rstrip p s); [destruct (p d)|]; done.
Qed.

Lemma rstrip_last p s c :
  last_char (Str.rstrip p s) = Some c → p c = false.
Proof.
  induction s as [|d s IH]; [done|]. cbn [Str.rstrip].
  destruct (Str.rstrip p s) as [|e r] eqn:Hr.
  - destruct (p d) eqn:Hd; [done|]. cbn [last_char]. by intros [= <-].
  - intros Hl. apply IH. exact Hl.
Qed.

(** What [s.strip(chars)] returns neither starts nor ends with one of
    [chars]. *)
Lemma strip_ends p s c :
  first_char (Str.strip p s) = Some c ∨ last_char (Str.strip p s) = Some c →
  p c = false.
Proof.
  unfold Str.strip. intros [Hf|Hl].
  - apply rstrip_first in Hf. by apply lstrip_first in Hf.
  - by apply rstrip_last in Hl.
Qed.

End StripFacts.

Section UrlErrors.
Context `{PyRuntime}.

(** [urlparse] raises nothing but [ValueError]. *)
Lemma urlparse_raises_value_error url e :
  Url.urlparse url = Raise e → e = ValueError.
Proof.
  unfold Url.urlparse, Url.urlsplit.
  destruct (Url.split_scheme _) as [scheme rest].
  destruct (Url.split_netloc rest) as [netloc rest'].
  destruct (Url.check_brackets netloc); cbn [negb]; [|by intros [= <-]].
  destruct (Str.partition "#" rest') as [[a b]|];
    destruct (Str.partition "?" _) as [[a' b']|];
    destruct (Url.checknetloc netloc); cbn [negb];
    try (by intros [= <-]);
    destruct (bool_decide _ && _); try destruct (Url.splitparams _);
    discriminate.
Qed.

End UrlErrors.

Section StartEdges.
Context {L : Type} `{DeviceLibrary L} `{PyRuntime}.

Implicit Types w : World L.

(** A successful [start] makes one library call. *)
Lemma start_true_calls url mid w w1 :
  EasyTierDeviceClient.start url mid w = (Return true, w1) →
  calls w1 = calls w ++ [Call_start (start_config url mid w)]
  ∧ (cortex_start_web_client (start_config url mid w) (library w)).1 = 0%Z.
Proof.
  rewrite start_eq.
  destruct (cortex_start_web_client _ (library w)) as [r l].
  destruct (r =? 0)%Z eqn:Hr.
  - apply Z.eqb_eq in Hr.
    destruct (Url.urlparse url); intros Heq; [|discriminate].
    apply pair_equal_spec in Heq as [_ <-]. destruct mid; simpl; auto.
  - destruct (easytier_common_get_error_msg l) as [m l'].
    destruct (truthy_bytes m); [destruct (Utf8.valid _)|]; discriminate.
Qed.

(** X5. A URL whose path is empty or made of slashes only (the bare
    "scheme://host:port") gives the empty instance name. After a
    successful [start] with such a URL the client behaves as if nothing
    had been started: [stop] returns [False] and [get_network_info]
    returns [None], neither calling the library. *)
Theorem start_without_path_records_nothing_usable url mid w w1 parsed :
  EasyTierDeviceClient.start url mid w = (Return true, w1) →
  Url.urlparse url = Return parsed →
  Str.forallb (Ascii.eqb "/") (Url.path parsed) = true →
  instance_name w1 = Some ""
  ∧ EasyTierDeviceClient.stop w1
    = (Return false, put_line "No active instance to stop" w1)
  ∧ EasyTierDeviceClient.get_network_info w1 = (Return None, w1).
Proof.
  intros Hstart Hparse Hpath.
  destruct (start_effect _ _ _ _ _ Hstart) as (_ & _ & Hrec).
  destruct (Hrec eq_refl) as (parsed' & Hparse' & Hname).
  rewrite Hparse in Hparse'. injection Hparse' as <-.
  assert (instance_name w1 = Some "") as Hempty.
  { rewrite Hname. unfold Str.strip. by rewrite (lstrip_all _ _ Hpath). }
  split; [exact Hempty|]. split.
  - apply stop_idle. by rewrite Hempty.
  - apply get_network_info_idle. by rewrite Hempty.
Qed.

(** X6. [start] does not look at what is on record. A second successful
    [start] makes the library call like the first, replaces the recorded
    name by that of its own URL, and stops nothing: the two calls that
    start a client are the only ones made. *)
Theorem second_start_replaces_record url1 mid1 url2 mid2 w w1 w2 :
  EasyTierDeviceClient.start url1 mid1 w = (Return true, w1) →
  EasyTierDeviceClient.start url2 mid2 w1 = (Return true, w2) →
  ∃ parsed2,
    Url.urlparse url2 = Return parsed2
    ∧ instance_name w2
      = Some (Str.strip (Ascii.eqb "/") (Url.path parsed2))
    ∧ calls w2
      = calls w ++ [Call_start (start_config url1 mid1 w);
                    Call_start (start_config url2 mid2 w1)].
Proof.
  intros H1 H2.
  destruct (start_true_calls _ _ _ _ H1) as [Hc1 _].
  destruct (start_true_calls _ _ _ _ H2) as [Hc2 _].
  destruct (start_effect _ _ _ _ _ H2) as (_ & _ & Hrec).
  destruct (Hrec eq_refl) as (parsed2 & Hparse & Hname).
  exists parsed2. split; [done|]. split; [done|].
  rewrite Hc2, Hc1, <- app_assoc. reflexivity.
Qed.


(** X7. [start] can end in an exception after it has called the library.
    When the library returns 0 and [urlparse] rejects the URL, [start]
    raises [ValueError]: the call that starts the client has been made,
    and no instance name is recorded for it. When the library returns
    another status and its error message is not empty and not well-formed
    UTF-8, [start] raises [UnicodeDecodeError] after the two calls. In
    both cases the recorded name and the output are as they were. *)
Theorem start_raises_after_library_call url mid w status l :
  cortex_start_web_client (start_config url mid w) (library w) = (status, l) →
  (status = 0%Z →
   ∀ e, Url.urlparse url = Raise e →
     ∃ w', EasyTierDeviceClient.start url mid w = (Raise ValueError, w')
       ∧ library w' = l
       ∧ calls w' = calls w ++ [Call_start (start_config url mid w)]
       ∧ instance_name w' = instance_name w
       ∧ stdout w' = stdout w)
  ∧ (status ≠ 0%Z →
     ∀ text l',
       easytier_common_get_error_msg l = (Some text, l') →
       text ≠ "" → Utf8.valid text = false →
       ∃ w', EasyTierDeviceClient.start url mid w
             = (Raise UnicodeDecodeError, w')
         ∧ library w' = l'
         ∧ calls w'
           = calls w ++ [Call_start (start_config url mid w);
                         Call_get_error_msg]
         ∧ instance_name w' = instance_name w
         ∧ stdout w' = stdout w).
Proof.
  intros Hlib. rewrite start_eq, Hlib. cbv beta iota zeta. split.
  - intros ->. intros e He.
    pose proof (urlparse_raises_value_error _ _ He) as ->.
    rewrite He. cbn [Z.eqb]. eexists. split; [reflexivity|].
    destruct mid; repeat split; reflexivity.
  - intros Hs text l' Hmsg Hne Hv. apply Z.eqb_neq in Hs. rewrite Hs, Hmsg.
    cbv beta iota zeta.
    assert (truthy_bytes (Some text) = true) as ->
      by (by destruct text).
    cbn [default from_option id]. rewrite Hv.
    eexists. split; [reflexivity|].
    destruct mid; cbn; rewrite <- ?app_assoc; repeat split; reflexivity.
Qed.


(** X9. The instance name a successful [start] records never starts and
    never ends with a slash. *)
Theorem recorded_name_has_no_slash_at_ends url mid w w1 :
  EasyTierDeviceClient.start url mid w = (Return true, w1) →
  ∃ name, instance_name w1 = Some name
    ∧ first_char name ≠ Some "/"%char
    ∧ last_char name ≠ Some "/"%char.
Proof.
  intros Hstart.
  destruct (start_effect _ _ _ _ _ Hstart) as (_ & _ & Hrec).
  destruct (Hrec eq_refl) as (parsed & _ & Hname).
  eexists. split; [exact Hname|].
  split; intros Hc.
  - assert (Ascii.eqb "/" "/" = false) as Hno; [|discriminate].
    apply (strip_ends _ (Url.path parsed)). by left.
  - assert (Ascii.eqb "/" "/" = false) as Hno; [|discriminate].
    apply (strip_ends _ (Url.path parsed)). by right.
Qed.

End StartEdges.

(** ** The machine id [start] makes up *)

Ltac bits_of r :=
  repeat match goal with
  | |- context [N.testbit r ?i] =>
      let i' := eval vm_compute in i in
      progress change (N.testbit r i) with (N.testbit r i')
  end;
  repeat match goal with
  | |- context [N.testbit r ?i] => generalize (N.testbit r i)
  end.

Section UuidFacts.

Lemma testbit_15_high n : (4 <= n)%N → N.testbit 15 n = false.
Proof. intros Hn. change 15%N with (N.ones 4). by apply N.ones_spec_high. Qed.

(** The version field holds 4. *)
Lemma nibble_version r : uuid.nibble (uuid.uuid4 r) 19 = 4%N.
Proof.
  unfold uuid.nibble, uuid.uuid4. cbv zeta.
  apply N.bits_inj. intros n.
  rewrite N.land_spec.
  destruct (N.ltb_spec n 4) as [Hlt|Hge].
  - rewrite N.shiftr_spec', !N.lor_spec, !N.ldiff_spec, !N.lor_spec,
      !N.ldiff_spec, N.land_spec.
    assert (n = 0 ∨ n = 1 ∨ n = 2 ∨ n = 3)%N as [-> | [-> | [-> | ->]]] by lia;
      bits_of r; vm_compute; repeat (let b := fresh in intros b; destruct b);
      reflexivity.
  - rewrite testbit_15_high by done. rewrite andb_false_r.
    symmetry. apply N.bits_above_log2. change (N.log2 4) with 2%N. lia.
Qed.

(** The variant field holds binary 10, above two random bits. *)
Lemma nibble_variant r :
  uuid.nibble (uuid.uuid4 r) 15 = N.lor 8 (N.land (N.shiftr r 60) 3).
Proof.
  unfold uuid.nibble, uuid.uuid4. cbv zeta.
  apply N.bits_inj. intros n.
  rewrite N.land_spec, N.lor_spec, N.land_spec.
  destruct (N.ltb_spec n 4) as [Hlt|Hge].
  - rewrite !N.shiftr_spec', !N.lor_spec, !N.ldiff_spec, !N.lor_spec,
      !N.ldiff_spec, N.land_spec.
    assert (n = 0 ∨ n = 1 ∨ n = 2 ∨ n = 3)%N as [-> | [-> | [-> | ->]]] by lia;
      bits_of r; vm_compute; repeat (let b := fresh in intros b; destruct b);
      reflexivity.
  - rewrite testbit_15_high by done. rewrite andb_false_r.
    assert (N.testbit 8 n = false) as ->.
    { apply N.bits_above_log2. change (N.log2 8) with 3%N. lia. }
    assert (N.testbit 3 n = false) as ->.
    { apply N.bits_above_log2. change (N.log2 3) with 1%N. lia. }
    by rewrite andb_false_r.
Qed.

Lemma hex_digit_is_hex n : is_hex (uuid.hex_digit n) = true.
Proof.
  unfold uuid.hex_digit. generalize (N.to_nat n) as k. intros k.
  do 15 (destruct k as [|k]; [reflexivity|]). reflexivity.
Qed.

Lemma variant_digit r :
  let c := uuid.hex_digit (N.lor 8 (N.land (N.shiftr r 60) 3)) in
  Ascii.eqb c "8" || Ascii.eqb c "9" || Ascii.eqb c "a" || Ascii.eqb c "b"
  = true.
Proof.
  change 3%N with (N.ones 2). rewrite N.land_ones.
  pose proof (N.mod_lt (N.shiftr r 60) (2 ^ 2) ltac:(done)) as Hlt.
  destruct (N.shiftr r 60 mod 2 ^ 2)%N as [|p] eqn:E; [reflexivity|].
  change (2 ^ 2)%N with 4%N in Hlt.
  destruct p as [[]|[]|]; try reflexivity; lia.
Qed.

(** Whatever the random bits, the text is that of a version-4 UUID. *)
Lemma uuid4_text r : is_uuid4_text (uuid.str (uuid.uuid4 r)) = true.
Proof.
  unfold is_uuid4_text.
  cbv beta iota zeta delta [uuid.str uuid.hex_run append Nat.sub].
  rewrite nibble_version. pose proof (variant_digit r) as Hv.
  rewrite <- nibble_variant in Hv. cbv zeta in Hv.
  cbn [String.length Nat.eqb chars_from uuid4_char orb andb].
  rewrite Hv, !hex_digit_is_hex. reflexivity.
Qed.

End UuidFacts.

Section StartMachineId.
Context {L : Type} `{DeviceLibrary L} `{PyRuntime}.

Implicit Types w : World L.

(** X10. Called without a machine id, [start] draws 16 random bytes once
    and hands the library the text of a version-4 UUID made from them: 36
    characters, lower-case hexadecimal digits in groups of 8-4-4-4-12, the
    version digit 4 and a variant digit among 8, 9, a, b. Called with a
    machine id, it hands that one over and draws nothing. *)
Theorem start_makes_up_uuid4 url w :
  (∃ rest,
     calls (EasyTierDeviceClient.start url None w).2
     = calls w
       ++ Call_start
            {| CortexWebClient.config_server_url := Some url;
               CortexWebClient.organization_id := None;
               CortexWebClient.machine_id := Some (next_uuid w) |}
       :: rest)
  ∧ is_uuid4_text (next_uuid w) = true
  ∧ drawn (EasyTierDeviceClient.start url None w).2 = S (drawn w)
  ∧ ∀ m,
      drawn (EasyTierDeviceClient.start url (Some m) w).2 = drawn w
      ∧ ∃ rest,
          calls (EasyTierDeviceClient.start url (Some m) w).2
          = calls w
            ++ Call_start
                 {| CortexWebClient.config_server_url := Some url;
                    CortexWebClient.organization_id := None;
                    CortexWebClient.machine_id := Some m |}
            :: rest.
Proof.
  split; [|split; [|split]].
  - destruct (start_calls url None w) as (rest & Hc & _). by exists rest.
  - apply uuid4_text.
  - by destruct (start_frame url None w) as (_ & _ & _ & ->).
  - intros m. split.
    + by destruct (start_frame url (Some m) w) as (_ & _ & _ & ->).
    + destruct (start_calls url (Some m) w) as (rest & Hc & _). by exists rest.
Qed.

End StartMachineId.

(** ** [main] as a whole *)

Section MainFacts.
Context {L : Type} `{DeviceLibrary L} `{PyRuntime}.

Implicit Types w : World L.

(** [main], step by step. *)
Lemma main_eq w :
  main w
  = match main_machine_id w with
    | (Raise e, w1) => (Raise e, w1)
    | (Return id, w1) =>
        match EasyTierDeviceClient.start main_url (Some id)
                (set_instance_name None w1) with
        | (Raise e, w3) => (Raise e, w3)
        | (Return false, w3) =>
            (Return 1%Z, put_line "Failed to start web client" w3)
        | (Return true, w3) =>
            match EasyTierDeviceClient.get_network_info
                    (put_line "Device will automatically join VPN networks when configured by admin"
                       (put_line "Waiting for admin approval and network configuration..."
                          (put_line "Web client connected successfully" w3))) with
            | (Raise e, w5) => (Raise e, w5)
            | (Return None, w5) => (Return 0%Z, w5)
            | (Return (Some d), w5) =>
                (Return 0%Z,
                 if bool_decide (d = ∅) then w5
                 else put_line ("Network Info: " +:+ format_info d) w5)
            end
        end
    end.
Proof.
  unfold main, main_url. unfold bind at 1.
  destruct (main_machine_id w) as [[id|e] w1]; [|reflexivity].
  unfold bind at 1. unfold EasyTierDeviceClient.init, assign_instance_name.
  unfold bind at 1.
  destruct (EasyTierDeviceClient.start _ (Some id) _) as [[[|]|e] w3];
    [|reflexivity|reflexivity].
  unfold print, bind, ret.
  destruct (EasyTierDeviceClient.get_network_info _) as [[[d|]|e] w5];
    [|reflexivity|reflexivity].
  destruct (bool_decide (d = ∅)); reflexivity.
Qed.

(** The identity block touches neither the library nor the client nor the
    output. *)
Lemma main_machine_id_frame w :
  calls (main_machine_id w).2 = calls w
  ∧ library (main_machine_id w).2 = library w
  ∧ stdout (main_machine_id w).2 = stdout w
  ∧ instance_name (main_machine_id w).2 = instance_name w.
Proof.
  unfold main_machine_id, os.path_exists, os.read_text, os.makedirs,
    os.open_w, os.write_close, uuid4_str, bind, ret.
  destruct (bool_decide (is_Some (fs w !! MACHINE_ID_FILE))).
  - destruct (fs w !! MACHINE_ID_FILE) as [[c|]|]; [|simpl; auto..].
    destruct (Utf8.decode c); simpl; auto.
  - cbn [fs set_drawn].
    destruct (Str.is_empty (os.dirname MACHINE_ID_FILE)); [simpl; auto|].
    destruct (os.mkdirs (fs w) _) as [f1|e]; [|simpl; auto].
    cbn [fs set_fs].
    destruct (f1 !! MACHINE_ID_FILE) as [[c|]|];
      try destruct (os.is_dir f1 _); simpl; auto.
Qed.

(** The URL of [main] parses, whatever the runtime's netloc checks. *)
Lemma urlparse_main_url :
  Url.urlparse main_url
  = Return {| Url.scheme := "tcp"; Url.netloc := "192.168.1.100:11020";
              Url.path := "/550e8400-e29b-41d4-a716-446655440000";
              Url.params := ""; Url.query := ""; Url.fragment := "" |}.
Proof. reflexivity. Qed.

(** After the identity block, [main] leaves the files alone. *)
Lemma main_fs w id w1 :
  main_machine_id w = (Return id, w1) →
  fs (main w).2 = fs w1 ∧ fs_seen (main w).2 = fs_seen w1.
Proof.
  intros Hid. rewrite main_eq, Hid.
  pose proof (start_frame main_url (Some id) (set_instance_name None w1))
    as (Hf & Hs & _).
  cbn [fs fs_seen set_instance_name] in Hf, Hs.
  destruct (EasyTierDeviceClient.start _ _ _) as [[[|]|e] w3];
    cbn [snd fs fs_seen put_line] in *; try done.
  match goal with |- context [EasyTierDeviceClient.get_network_info ?w4] =>
    pose proof (get_network_info_frame w4) as (Hf' & Hs' & _);
    destruct (EasyTierDeviceClient.get_network_info w4) as [[[d|]|e] w5]
  end; cbn [snd fs fs_seen put_line] in *;
    try destruct (bool_decide (d = ∅)); cbn [fs fs_seen put_line];
    split; congruence.
Qed.

(** X11. [main] never stops the client it starts: no call to
    [cortex_stop_web_client] is made, and when [main] returns 0 the
    organization id is still on record as the instance name. *)
Theorem main_leaves_client_running w :
  ∃ new,
    calls (main w).2 = calls w ++ new
    ∧ Forall (λ c, is_stop_call c = false) new
    ∧ ((main w).1 = Return 0%Z →
       instance_name (main w).2 = Some ORGANIZATION_ID).
Proof.
  rewrite main_eq.
  pose proof (main_machine_id_frame w) as (Hc0 & _).
  destruct (main_machine_id w) as [[id|e] w1]; cbn [snd] in Hc0.
  2:{ exists []. rewrite app_nil_r. cbn [fst snd].
      split; [done|]. split; [constructor|discriminate]. }
  destruct (EasyTierDeviceClient.start main_url (Some id)
              (set_instance_name None w1)) as [o w3] eqn:Hstart.
  destruct (start_effect _ _ _ _ _ Hstart) as ((new1 & Hc1 & Hf1) & _ & Hrec).
  cbn [calls set_instance_name] in Hc1. rewrite Hc0 in Hc1.
  assert (Forall (λ c, is_stop_call c = false) new1) as Hns1.
  { eapply Forall_impl; [exact Hf1|]. by intros []. }
  destruct o as [[|]|e]; cbn [fst snd calls put_line];
    [|exists new1; split; [done|]; split; [done|discriminate]..].
  destruct (Hrec eq_refl) as (parsed & Hparse & Hname).
  rewrite urlparse_main_url in Hparse. injection Hparse as <-.
  change (Str.strip _ _) with ORGANIZATION_ID in Hname.
  match goal with |- context [EasyTierDeviceClient.get_network_info ?w4] =>
    pose proof (get_network_info_frame w4) as (_ & _ & _ & _ & _ & Hi);
    destruct (EasyTierDeviceClient.get_network_info w4) as [o w5] eqn:Hg;
    destruct (get_network_info_effect _ _ _ Hg)
      as [(_ & _ & ->)|(n & _ & _ & Hc & _)]
  end; cbn [snd instance_name calls put_line] in *.
  - exists new1.
    destruct o as [[d|]|e]; try destruct (bool_decide (d = ∅));
      cbn [fst snd calls instance_name put_line]; auto.
  - exists (new1 ++ [Call_get_network_info n]).
    destruct o as [[d|]|e]; try destruct (bool_decide (d = ∅));
      cbn [fst snd calls instance_name put_line];
      rewrite Hc, Hc1, <- app_assoc;
      (split; [done|]; split;
       [apply Forall_app; split; [done|by repeat constructor]
       |intros _; congruence || discriminate]).
Qed.


End MainFacts.

Section IdentityEdges.
Context {L : Type} `{DeviceLibrary L} `{PyRuntime}.

Implicit Types w : World L.

(** Text made of ASCII white space strips to nothing. *)
Lemma strip_blank s :
  Str.forallb Whitespace.ascii_space s = true → Whitespace.strip s = "".
Proof.
  intros Hs. unfold Whitespace.strip.
  assert (Whitespace.lstrip s = "") as ->; [|reflexivity].
  induction s as [|c s IH]; [done|].
  cbn [Str.forallb] in Hs. apply andb_true_iff in Hs as [Hc Hs].
  cbn [Whitespace.lstrip]. rewrite Hc. auto.
Qed.

(** [os.makedirs] fails when a directory on the way is taken by a regular
    file. *)
Lemma mkdirs_blocked ds : ∀ f : gmap string Node,
  (∃ d c, d ∈ ds ∧ f !! d = Some (File c)) →
  ∃ e, os.mkdirs f ds = Raise e
       ∧ (e = FileExistsError ∨ e = NotADirectoryError).
Proof.
  induction ds as [|d0 ds IH]; intros f (d & c & Hin & Hd).
  - inversion Hin.
  - cbn [os.mkdirs]. unfold os.mkdir_step.
    destruct (f !! d0) as [[c0|]|] eqn:Hd0.
    + eexists. split; [reflexivity|]. destruct (bool_decide _); auto.
    + apply IH. exists d, c. split; [|done].
      apply elem_of_cons in Hin as [->|Hin]; [congruence|done].
    + apply IH. exists d, c.
      assert (d ≠ d0) as Hne by congruence.
      split; [|by rewrite lookup_insert_ne].
      apply elem_of_cons in Hin as [->|Hin]; done.
Qed.

(** X13. The machine id that the first run of [main] makes up is the one
    every later run uses: if nothing exists at the path of the identity
    file (and the directories above it can be made), [main] hands a fresh
    UUID to the library, and a [main] run in any process that finds the
    file system as that run left it hands over the same UUID and leaves
    the files as they are. *)
Theorem main_reuses_identity w :
  fs w !! MACHINE_ID_FILE = None →
  parents_creatable (fs w) →
  (∃ rest,
     calls (main w).2
     = calls w
       ++ Call_start
            {| CortexWebClient.config_server_url := Some main_url;
               CortexWebClient.organization_id := None;
               CortexWebClient.machine_id := Some (next_uuid w) |}
       :: rest)
  ∧ ∀ w2 : World L,
      fs w2 = fs (main w).2 →
      fs (main w2).2 = fs w2
      ∧ ∃ rest,
          calls (main w2).2
          = calls w2
            ++ Call_start
                 {| CortexWebClient.config_server_url := Some main_url;
                    CortexWebClient.organization_id := None;
                    CortexWebClient.machine_id := Some (next_uuid w) |}
            :: rest.
Proof.
  intros Hf Hfree.
  destruct (machine_id_created w Hf Hfree) as (f1 & _ & _ & Hrun).
  destruct (main_passes_machine_id w _ _ Hrun) as (rest & Hcalls).
  destruct (main_fs w _ _ Hrun) as [Hfs _].
  cbn [calls fs set_fs set_drawn] in Hcalls, Hfs.
  split; [by exists rest|].
  intros w2 Hw2.
  assert (main_machine_id w2 = (Return (next_uuid w), w2)) as Hread.
  { apply machine_id_read_uuid. rewrite Hw2, Hfs. apply lookup_insert_eq. }
  split.
  - by destruct (main_fs w2 _ _ Hread) as [-> _].
  - destruct (main_passes_machine_id w2 _ _ Hread) as (rest2 & Hcalls2).
    by exists rest2.
Qed.

(** X14. An identity file that exists but holds only white space (or
    nothing, as a first run interrupted after opening it leaves it) is
    taken as it is: the machine id is the empty text, no UUID is made up,
    the file is not rewritten, and [main] hands the empty machine id to
    the library. *)
Theorem blank_identity_file_gives_empty_machine_id w content :
  fs w !! MACHINE_ID_FILE = Some (File content) →
  Str.forallb Whitespace.ascii_space content = true →
  main_machine_id w = (Return "", w)
  ∧ ∃ rest,
      calls (main w).2
      = calls w
        ++ Call_start
             {| CortexWebClient.config_server_url := Some main_url;
                CortexWebClient.organization_id := None;
                CortexWebClient.machine_id := Some "" |}
        :: rest.
Proof.
  intros Hf Hblank.
  assert (main_machine_id w = (Return "", w)) as Hread.
  { rewrite (machine_id_read w content Hf).
    rewrite valid_ascii
      by (revert Hblank; apply forallb_impl, space_is_ascii).
    by rewrite strip_blank by (by apply newlines_blank). }
  split; [exact Hread|].
  destruct (main_passes_machine_id w _ _ Hread) as (rest & Hcalls).
  by exists rest.
Qed.

(** X15. When the identity cannot be read or stored, [main] ends with the
    exception before the client is created: no library call is made and
    nothing is printed or written. That is so when the path of the
    identity file is a directory ([IsADirectoryError]), and when nothing
    exists at the path but a directory above it is taken by a regular
    file ([FileExistsError] or [NotADirectoryError], after a UUID has been
    drawn). *)
Theorem main_stops_on_identity_failure w :
  (fs w !! MACHINE_ID_FILE = Some Dir →
   main w = (Raise IsADirectoryError, w))
  ∧ (fs w !! MACHINE_ID_FILE = None →
     parent_is_file (fs w) →
     ∃ e, main w = (Raise e, set_drawn (S (drawn w)) w)
          ∧ (e = FileExistsError ∨ e = NotADirectoryError)).
Proof.
  split.
  - intros Hf. rewrite main_eq.
    unfold main_machine_id, os.path_exists, os.read_text, bind, ret.
    rewrite Hf. rewrite bool_decide_eq_true_2 by eauto.
    cbv beta iota zeta. by rewrite Hf.
  - intros Hf Hblocked.
    destruct (mkdirs_blocked _ (fs w) Hblocked) as (e & Hmk & He).
    exists e. split; [|exact He]. rewrite main_eq.
    unfold main_machine_id, os.path_exists, os.makedirs, uuid4_str, bind, ret.
    rewrite Hf. rewrite bool_decide_eq_false_2 by (intros [? ?]; discriminate).
    rewrite dirname_machine_id in *.
    cbn [Str.is_empty fs set_drawn]. by rewrite Hmk.
Qed.

End IdentityEdges.

(** ** The further properties at work *)

Lemma start_without_path_records_nothing_usable_witness :
  let w := Examples.idle (Examples.agreeable None) in
  let w1 := (EasyTierDeviceClient.start (H0 := lenient_runtime)
               CONFIG_SERVER_URL (Some "m-1") w).2 in
  instance_name w1 = Some ""
  ∧ EasyTierDeviceClient.stop w1
    = (Return false, put_line "No active instance to stop" w1)
  ∧ EasyTierDeviceClient.get_network_info w1 = (Return None, w1).
Proof.
  intros w w1.
  apply (start_without_path_records_nothing_usable (H0 := lenient_runtime)
           CONFIG_SERVER_URL (Some "m-1") w w1
           {| Url.scheme := "tcp"; Url.netloc := "192.168.1.100:11020";
              Url.path := ""; Url.params := ""; Url.query := "";
              Url.fragment := "" |}); reflexivity.
Defined.

Lemma second_start_replaces_record_witness :
  let w := Examples.idle (Examples.agreeable None) in
  let w1 := (EasyTierDeviceClient.start (H0 := lenient_runtime)
               "tcp://host:11020/org-123" (Some "m-1") w).2 in
  let w2 := (EasyTierDeviceClient.start (H0 := lenient_runtime)
               "tcp://host:11020/org-456" (Some "m-1") w1).2 in
  instance_name w1 = Some "org-123"
  ∧ instance_name w2 = Some "org-456"
  ∧ Forall (λ c, is_stop_call c = false) (calls w2).
Proof.
  intros w w1 w2.
  destruct (second_start_replaces_record (H0 := lenient_runtime)
              "tcp://host:11020/org-123" (Some "m-1")
              "tcp://host:11020/org-456" (Some "m-1") w w1 w2)
    as (parsed & Hparse & Hname & Hcalls); [reflexivity..|].
  split; [reflexivity|]. split.
  - rewrite Hname. vm_compute in Hparse. by injection Hparse as <-.
  - rewrite Hcalls. by repeat constructor.
Defined.

Lemma start_raises_after_library_call_witness :
  let w := Examples.running (Examples.agreeable None) in
  let r := EasyTierDeviceClient.start (H0 := lenient_runtime)
             "tcp://[host:11020/org-456" (Some "m-1") w in
  r.1 = Raise ValueError
  ∧ instance_name r.2 = Some "org-123"
  ∧ calls r.2
    = [Call_start
         {| CortexWebClient.config_server_url :=
              Some "tcp://[host:11020/org-456";
            CortexWebClient.organization_id := None;
            CortexWebClient.machine_id := Some "m-1" |}].
Proof.
  intros w r.
  assert (cortex_start_web_client
            (start_config "tcp://[host:11020/org-456" (Some "m-1") w)
            (library w)
          = (0%Z, Examples.agreeable None)) as Hlib
    by (vm_compute; reflexivity).
  destruct (proj1 (start_raises_after_library_call (H0 := lenient_runtime)
                     "tcp://[host:11020/org-456" (Some "m-1") w 0%Z
                     (Examples.agreeable None) Hlib)
              eq_refl ValueError)
    as (w' & Hrun & _ & Hcalls & Hname & _).
  - vm_compute. reflexivity.
  - subst r. rewrite Hrun. cbn [fst snd].
    split; [reflexivity|]. split; [exact Hname|exact Hcalls].
Defined.


Lemma recorded_name_has_no_slash_at_ends_witness :
  let w := Examples.idle (Examples.agreeable None) in
  let w1 := (EasyTierDeviceClient.start (H0 := lenient_runtime)
               "tcp://host:11020//org/123//" (Some "m-1") w).2 in
  instance_name w1 = Some "org/123"
  ∧ ∃ name, instance_name w1 = Some name
      ∧ first_char name ≠ Some "/"%char ∧ last_char name ≠ Some "/"%char.
Proof.
  intros w w1. split; [reflexivity|].
  apply (recorded_name_has_no_slash_at_ends (H0 := lenient_runtime)
           "tcp://host:11020//org/123//" (Some "m-1") w w1).
  reflexivity.
Defined.


Lemma main_reuses_identity_witness :
  let w2 := new_world (Examples.refusing None) after_first_run in
  fs (main (H0 := lenient_runtime) w2).2 = after_first_run
  ∧ ∃ rest,
      calls (main (H0 := lenient_runtime) w2).2
      = Call_start
          {| CortexWebClient.config_server_url := Some main_url;
             CortexWebClient.organization_id := None;
             CortexWebClient.machine_id
               := Some "00000000-0000-4000-8000-000000000000" |}
        :: rest.
Proof.
  intros w2.
  destruct (main_reuses_identity (H0 := lenient_runtime)
              (Examples.idle (Examples.agreeable None))) as (_ & Hlater).
  - reflexivity.
  - intros d c Hd. vm_compute. discriminate.
  - apply (Hlater w2). vm_compute. reflexivity.
Defined.

Lemma blank_identity_file_gives_empty_machine_id_witness :
  main_machine_id (new_world (Examples.agreeable None) blank_identity)
  = (Return "", new_world (Examples.agreeable None) blank_identity).
Proof.
  apply (blank_identity_file_gives_empty_machine_id (H0 := lenient_runtime)
           (new_world (Examples.agreeable None) blank_identity) "");
    reflexivity.
Defined.

Lemma main_stops_on_identity_failure_witness :
  let w := new_world (Examples.agreeable None) blocked_parent in
  ∃ e, main (H0 := lenient_runtime) w = (Raise e, set_drawn 1 w)
       ∧ (e = FileExistsError ∨ e = NotADirectoryError).
Proof.
  intros w.
  apply (proj2 (main_stops_on_identity_failure (H0 := lenient_runtime) w)).
  - reflexivity.
  - exists "/var/lib", "x". split; [|reflexivity].
    rewrite chain_machine_id.
    apply list_elem_of_further, list_elem_of_here.
Defined.

(** ** More on URLs, on the calls of [start] and on stored identities *)

Section ForallbFacts.

Lemma forallb_lstrip p q s :
  Str.forallb p s = true → Str.forallb p (Str.lstrip q s) = true.
Proof.
  induction s as [|c s IH]; [done|].
  cbn [Str.forallb Str.lstrip]. intros Hs.
  destruct (q c); [|exact Hs]. apply andb_true_iff in Hs as [_ Hs]. auto.
Qed.

Lemma forallb_remove p q s :
  Str.forallb p s = true → Str.forallb p (Str.remove q s) = true.
Proof.
  induction s as [|c s IH]; [done|].
  cbn [Str.forallb Str.remove]. intros [Hc Hs]%andb_true_iff.
  destruct (q c); cbn [Str.forallb]; rewrite ?Hc; auto.
Qed.

Lemma forallb_partition p sep s a b :
  Str.forallb p s = true → Str.partition sep s = Some (a, b) →
  Str.forallb p a = true ∧ Str.forallb p b = true.
Proof.
  revert a. induction s as [|c s IH]; intros a; [done|].
  cbn [Str.forallb Str.partition]. intros [Hc Hs]%andb_true_iff.
  destruct (Ascii.eqb c sep); [by intros [= <- <-]|].
  destruct (Str.partition sep s) as [[a' b']|]; [|done].
  intros [= <- <-]. destruct (IH a' Hs eq_refl) as [Ha Hb].
  cbn [Str.forallb]. by rewrite Hc, Ha.
Qed.

Lemma forallb_span p q s :
  Str.forallb p s = true →
  Str.forallb p (Str.span q s).1 = true
  ∧ Str.forallb p (Str.span q s).2 = true.
Proof.
  induction s as [|c s IH]; [done|].
  cbn [Str.forallb Str.span]. intros Hs.
  destruct (q c); [|by cbn [fst snd Str.forallb]].
  apply andb_true_iff in Hs as [Hc Hs]. destruct (IH Hs) as [Ha Hb].
  destruct (Str.span q s) as [a b]. cbn [fst snd Str.forallb] in *.
  by rewrite Hc, Ha.
Qed.

End ForallbFacts.

Section UrlAccepts.
Context `{PyRuntime}.

(** A netloc is split off only after two slashes. *)
Lemma split_netloc_cases u :
  Url.split_netloc u = ("", u)
  ∨ ∃ rest, u = String "/" (String "/" rest)
            ∧ Url.split_netloc u
              = Str.span (λ c, negb (Url.is_netloc_delim c)) rest.
Proof.
  destruct u as [|a u]; [by left|].
  destruct a as [[] [] [] [] [] [] [] []]; try (by left).
  destruct u as [|b u]; [by left|].
  destruct b as [[] [] [] [] [] [] [] []]; try (by left).
  right. by exists u.
Qed.

(** The netloc of an ASCII URL without square brackets passes both of its
    checks, so [urlparse] returns. *)
Lemma urlparse_unbracketed_ascii url :
  Str.forallb unbracketed_ascii url = true →
  ∃ parsed, Url.urlparse url = Return parsed.
Proof.
  intros Hurl. unfold Url.urlparse, Url.urlsplit.
  set (u1 := Str.remove Url.is_unsafe (Str.lstrip _ url)).
  assert (Str.forallb unbracketed_ascii u1 = true) as H1
    by (by apply forallb_remove, forallb_lstrip).
  assert (Str.forallb unbracketed_ascii (Url.split_scheme u1).2 = true) as H2.
  { unfold Url.split_scheme.
    destruct (Str.partition ":" u1) as [[pre post]|] eqn:Hp; [|done].
    destruct (forallb_partition _ _ _ _ _ H1 Hp) as [_ Hpost].
    by destruct (_ && _). }
  destruct (Url.split_scheme u1) as [scheme u2]. cbn [snd] in H2.
  assert (Str.forallb unbracketed_ascii (Url.split_netloc u2).1 = true) as H3.
  { destruct (split_netloc_cases u2) as [->|(rest & -> & ->)]; [done|].
    cbn [Str.forallb] in H2. apply andb_true_iff in H2 as [_ H2].
    apply andb_true_iff in H2 as [_ H2].
    by apply forallb_span. }
  destruct (Url.split_netloc u2) as [netloc u3]. cbn [fst] in H3.
  assert (Url.check_brackets netloc = true) as ->.
  { unfold Url.check_brackets.
    rewrite (forallb_not_contains unbracketed_ascii "[" netloc) by done.
    by rewrite (forallb_not_contains unbracketed_ascii "]" netloc). }
  assert (Url.checknetloc netloc = true) as ->.
  { unfold Url.checknetloc.
    assert (Str.forallb Str.isascii netloc = true) as ->.
    { eapply forallb_impl; [|exact H3]. unfold unbracketed_ascii.
      intros c Hc. repeat (apply andb_true_iff in Hc as [Hc ?]). done. }
    by rewrite orb_true_r. }
  cbn [negb].
  destruct (Str.partition "#" u3) as [[a b]|];
    destruct (Str.partition "?" _) as [[a' b']|];
    destruct (bool_decide _ && _); try destruct (Url.splitparams _); eauto.
Qed.

End UrlAccepts.

Section RevFacts.

Lemma rev_app_append s : ∀ acc, String.rev_app s acc = String.rev s +:+ acc.
Proof.
  unfold String.rev. induction s as [|c s IH]; intros acc; [done|].
  cbn [String.rev_app]. rewrite (IH (String c acc)), (IH (String c "")).
  generalize (String.rev_app s "") as r. intros r.
  induction r as [|d r IHr]; [done|]. rewrite !append_cons. by rewrite IHr.
Qed.

Lemma rev_cons c s : String.rev (String c s) = String.rev s +:+ String c "".
Proof. unfold String.rev at 1. cbn [String.rev_app]. apply rev_app_append. Qed.

Lemma append_assoc a b c : (a +:+ b) +:+ c = a +:+ (b +:+ c).
Proof.
  induction a as [|d a IH]; [done|]. rewrite !append_cons. by rewrite IH.
Qed.

Lemma append_nil_r a : a +:+ "" = a.
Proof. induction a as [|d a IH]; [done|]. rewrite append_cons. by rewrite IH. Qed.

Lemma rev_append a b : String.rev (a +:+ b) = String.rev b +:+ String.rev a.
Proof.
  induction a as [|c a IH].
  - rewrite append_nil_l. change (String.rev "") with "".
    by rewrite append_nil_r.
  - rewrite append_cons, !rev_cons, IH. apply append_assoc.
Qed.

Lemma rev_rev a : String.rev (String.rev a) = a.
Proof.
  induction a as [|c a IH]; [done|].
  rewrite rev_cons, rev_append, IH. reflexivity.
Qed.

Lemma forallb_rev p s : Str.forallb p (String.rev s) = Str.forallb p s.
Proof.
  induction s as [|c s IH]; [done|].
  rewrite rev_cons, forallb_append, IH. cbn [Str.forallb].
  rewrite andb_true_r. apply andb_comm.
Qed.

Lemma rev_last s b :
  last_char s = Some b → ∃ r, String.rev s = String b r.
Proof.
  induction s as [|c s IH]; [done|].
  rewrite rev_cons. destruct s as [|d s].
  - cbn [last_char]. intros [= <-]. by exists "".
  - intros Hl. destruct (IH Hl) as [r ->]. rewrite append_cons. eauto.
Qed.

Lemma lstrip_blank_prefix ws s :
  Str.forallb Whitespace.ascii_space ws = true →
  Whitespace.lstrip (ws +:+ s) = Whitespace.lstrip s.
Proof.
  induction ws as [|c ws IH]; [done|].
  cbn [Str.forallb]. intros [Hc Hws]%andb_true_iff.
  rewrite append_cons. cbn [Whitespace.lstrip]. rewrite Hc. auto.
Qed.

Lemma lstrip_rev_blank_prefix ws s :
  Str.forallb Whitespace.ascii_space ws = true →
  Whitespace.lstrip_rev (ws +:+ s) = Whitespace.lstrip_rev s.
Proof.
  induction ws as [|c ws IH]; [done|].
  cbn [Str.forallb]. intros [Hc Hws]%andb_true_iff.
  rewrite append_cons. cbn [Whitespace.lstrip_rev]. rewrite Hc. auto.
Qed.

(** Blanks around a text that starts and ends with a plain character are
    what [strip()] removes, and nothing else. *)
Lemma strip_blanks_around before id after :
  Str.forallb Whitespace.ascii_space before = true →
  Str.forallb Whitespace.ascii_space after = true →
  plain_ends id →
  Whitespace.strip (before +:+ id +:+ after) = id.
Proof.
  intros Hb Ha [(a & Hfirst & Hpa) (b & Hlast & Hpb)].
  unfold Whitespace.strip, Whitespace.rstrip.
  rewrite (lstrip_blank_prefix _ _ Hb).
  destruct id as [|a' id]; [done|]. cbn [first_char] in Hfirst.
  injection Hfirst as ->.
  rewrite append_cons, (lstrip_plain a _ Hpa), <- append_cons.
  rewrite rev_append.
  rewrite lstrip_rev_blank_prefix by (by rewrite forallb_rev).
  destruct (rev_last _ _ Hlast) as [r Hr].
  rewrite Hr, (lstrip_rev_plain b r Hpb), <- Hr. apply rev_rev.
Qed.

End RevFacts.

Section MoreEdges.
Context {L : Type} `{DeviceLibrary L} `{PyRuntime}.

Implicit Types w : World L.

(** X16. The library calls of one [start] are exactly these: the call that
    starts the client and, if and only if its status is not 0, the call
    for the error message right after it. *)
Theorem start_calls_exactly url mid w :
  calls (EasyTierDeviceClient.start url mid w).2
  = calls w
    ++ Call_start (start_config url mid w)
    :: (if ((cortex_start_web_client (start_config url mid w) (library w)).1
            =? 0)%Z
        then [] else [Call_get_error_msg]).
Proof.
  rewrite start_eq.
  destruct (cortex_start_web_client _ (library w)) as [r l]. cbn [fst].
  destruct (r =? 0)%Z.
  - destruct (Url.urlparse url); destruct mid; reflexivity.
  - destruct (easytier_common_get_error_msg l) as [m l'].
    destruct (truthy_bytes m); [destruct (Utf8.valid _)|];
      destruct mid; simpl; by rewrite <- app_assoc.
Qed.

(** X17. With a URL made of ASCII characters other than square brackets,
    [urlparse] cannot fail: [start] returns [True] exactly when the
    library's status is 0, and never raises [ValueError]. *)
Theorem start_with_plain_url_follows_status url mid w :
  Str.forallb unbracketed_ascii url = true →
  ((EasyTierDeviceClient.start url mid w).1 = Return true
   ↔ (cortex_start_web_client (start_config url mid w) (library w)).1 = 0%Z)
  ∧ (EasyTierDeviceClient.start url mid w).1 ≠ Raise ValueError.
Proof.
  intros Hurl.
  destruct (urlparse_unbracketed_ascii url Hurl) as [parsed Hparse].
  rewrite start_eq, Hparse.
  destruct (cortex_start_web_client _ (library w)) as [r l]. cbn [fst].
  destruct (r =? 0)%Z eqn:Hr.
  - apply Z.eqb_eq in Hr. cbn [fst]. split; [done|discriminate].
  - apply Z.eqb_neq in Hr.
    destruct (easytier_common_get_error_msg l) as [m l'].
    destruct (truthy_bytes m); [destruct (Utf8.valid _)|]; cbn [fst];
      (split; [split; [discriminate|done]|discriminate]).
Qed.

(** X18. An identity stored with blanks or line ends around it is read
    back without them: if the file is well-formed UTF-8 and holds a text
    without carriage return that starts and ends with a plain character,
    between ASCII white space, the machine id is that text, and the file
    is left as it is. *)
Theorem stored_identity_read_without_blanks w before id after :
  fs w !! MACHINE_ID_FILE = Some (File (before +:+ id +:+ after)) →
  Utf8.valid (before +:+ id +:+ after) = true →
  Str.forallb Whitespace.ascii_space before = true →
  Str.forallb Whitespace.ascii_space after = true →
  Str.contains "013" id = false →
  plain_ends id →
  main_machine_id w = (Return id, w).
Proof.
  intros Hf Hv Hb Ha Hcr Hid.
  rewrite (machine_id_read w _ Hf), Hv.
  assert (first_char (id +:+ after) ≠ Some "010"%char) as Hfirst.
  { destruct Hid as [(a & Hfirst & Hpa) _].
    destruct id as [|a' id]; [done|]. cbn [first_char] in Hfirst.
    injection Hfirst as ->. rewrite append_cons. cbn [first_char].
    intros [= ->]. by destruct Hpa. }
  rewrite (newlines_append before _ Hfirst), (newlines_no_cr id Hcr).
  by rewrite strip_blanks_around by (done || by apply newlines_blank).
Qed.

End MoreEdges.

Lemma start_with_plain_url_follows_status_witness :
  let w := Examples.idle (Examples.agreeable None) in
  (EasyTierDeviceClient.start (H0 := lenient_runtime)
     "tcp://host:11020/org-123?x=1#y" None w).1 = Return true.
Proof.
  intros w.
  apply (start_with_plain_url_follows_status (H0 := lenient_runtime)
           "tcp://host:11020/org-123?x=1#y" None w); reflexivity.
Defined.

Lemma stored_identity_read_without_blanks_witness :
  main_machine_id (new_world (Examples.agreeable None) Examples.provisioned)
  = (Return "m-1", new_world (Examples.agreeable None) Examples.provisioned).
Proof.
  apply (stored_identity_read_without_blanks
           (new_world (Examples.agreeable None) Examples.provisioned)
           "" "m-1" "
"); try reflexivity.
  split; [exists "m"%char|exists "1"%char]; repeat split; reflexivity.
Defined.
